(** * The comprehensions and exceptions notebooks, embedded in Rocq

    The two notebooks of the course are sequences of Python cells run by one
    interpreter each.  This development embeds the fragment of Python the
    cells use -- names bound in a kernel namespace, function frames, file
    objects, the exception class hierarchy and the [try] statement -- as a
    state-and-exception monad over an explicit kernel state, translates the
    cells one by one, and proves what the course material says about them. *)

From stdpp Require Import gmap strings list fin_maps pretty.
From Stdlib Require Import ZArith Ascii FunctionalExtensionality.

Set Warnings "-register-all".

(** ** Classes *)

(** The built-in exception classes the notebooks meet, [object], the error
    class of the YAML library, and classes made by a [class] statement with
    one base. *)
Inductive pyclass :=
| object
| BaseException
| Exception
| ArithmeticError
| ZeroDivisionError
| LookupError
| KeyError
| NameError
| UnboundLocalError
| OSError
| FileNotFoundError
| UnsupportedOperation
| TypeError
| ValueError
| RuntimeError
| RecursionError
| SyntaxError
| AttributeError
| YAMLError
| UserClass (name : string) (base : pyclass).

Global Instance pyclass_eq_dec : EqDecision pyclass.
Proof. solve_decision. Defined.

(** Python 3 keeps [IOError] as another name of [OSError]. *)
Definition IOError : pyclass := OSError.

Definition mro_Exception : list pyclass := [Exception; BaseException; object].

(** [inspect.getmro]: the method resolution order of a class, the class
    first and [object] last. *)
Fixpoint getmro (c : pyclass) : list pyclass :=
  match c with
  | object => [object]
  | BaseException => [BaseException; object]
  | Exception => mro_Exception
  | ArithmeticError => ArithmeticError :: mro_Exception
  | ZeroDivisionError => ZeroDivisionError :: ArithmeticError :: mro_Exception
  | LookupError => LookupError :: mro_Exception
  | KeyError => KeyError :: LookupError :: mro_Exception
  | NameError => NameError :: mro_Exception
  | UnboundLocalError => UnboundLocalError :: NameError :: mro_Exception
  | OSError => OSError :: mro_Exception
  | FileNotFoundError => FileNotFoundError :: OSError :: mro_Exception
  | UnsupportedOperation =>
      UnsupportedOperation :: OSError :: ValueError :: mro_Exception
  | TypeError => TypeError :: mro_Exception
  | ValueError => ValueError :: mro_Exception
  | RuntimeError => RuntimeError :: mro_Exception
  | RecursionError => RecursionError :: RuntimeError :: mro_Exception
  | SyntaxError => SyntaxError :: mro_Exception
  | AttributeError => AttributeError :: mro_Exception
  | YAMLError => YAMLError :: mro_Exception
  | UserClass _ base => c :: getmro base
  end.

Definition issubclass (c d : pyclass) : bool := bool_decide (d ∈ getmro c).

(** ** Values *)

(** The functions the notebooks define with [def].  A later [def] of the
    same name is another function; the number tells them apart. *)
Inductive fname :=
| fn_read_credentials_1 | fn_read_credentials_2 | fn_read_credentials_3
| fn_f1 | fn_f2 | fn_f3 | fn_f4
| fn_analysis_1 | fn_analysis_2 | fn_analysis_3
| fn_lower_function | fn_higher_function.

(** Python objects.  An [int] is unbounded; a [float] only arises from true
    division and is kept as the exact quotient (rounding is not modelled); a
    [dict] has string keys; a file object is a reference into the kernel's
    table of file objects. *)
Inductive value :=
| VNone
| VBool (b : bool)
| VInt (z : Z)
| VFloat (num den : Z)
| VStr (s : string)
| VTuple (items : list value)
| VList (items : list value)
| VDict (d : gmap string value)
| VClass (c : pyclass)
| VModule (name : string)
| VBuiltin (name : string)
| VFun (f : fname)
| VFile (fd : nat)
| VExc (e : exn)
(** An instance of a class, in the notebooks always an exception: its class,
    the arguments it was made with and the [__cause__] set by
    [raise ... from]. *)
with exn :=
| Exn (cls : pyclass) (args : list value) (cause : option exn).

Definition exc_class (e : exn) : pyclass := let 'Exn c _ _ := e in c.
Definition exc_args (e : exn) : list value := let 'Exn _ a _ := e in a.
Definition exc_cause (e : exn) : option exn := let 'Exn _ _ c := e in c.

Definition isinstance (e : exn) (c : pyclass) : bool := issubclass (exc_class e) c.

(** ** The kernel state *)

Inductive fmode := ReadMode | WriteMode.

Record file_object := FileObject {
  f_name : string;
  f_mode : fmode;
  f_closed : bool
}.

(** What a running notebook can observe: the module namespace shared by the
    cells, the frame of the function being run, the working directory (path
    to content), every file object made so far, and what was printed. *)
Record kernel := Kernel {
  globals : gmap string value;
  locals : gmap string value;
  files : gmap string string;
  handles : list file_object;
  stdout : list value
}.

Definition set_globals (g : gmap string value) (k : kernel) : kernel :=
  Kernel g (locals k) (files k) (handles k) (stdout k).
Definition set_locals (l : gmap string value) (k : kernel) : kernel :=
  Kernel (globals k) l (files k) (handles k) (stdout k).
Definition set_files (fs : gmap string string) (k : kernel) : kernel :=
  Kernel (globals k) (locals k) fs (handles k) (stdout k).
Definition set_handles (h : list file_object) (k : kernel) : kernel :=
  Kernel (globals k) (locals k) (files k) h (stdout k).
Definition set_stdout (out : list value) (k : kernel) : kernel :=
  Kernel (globals k) (locals k) (files k) (handles k) out.

(** ** Computations that may raise *)

Inductive outcome (A : Type) :=
| Ret (a : A)
| Raise (e : exn).
Arguments Ret {A} a.
Arguments Raise {A} e.

Definition M (A : Type) : Type := kernel → outcome A * kernel.

Global Instance M_ret : MRet M := λ A a k, (Ret a, k).
Global Instance M_bind : MBind M := λ A B f m k,
  match m k with
  | (Ret a, k1) => f a k1
  | (Raise e, k1) => (Raise e, k1)
  end.

Definition raise_ {A} (e : exn) : M A := λ k, (Raise e, k).

(** An exception made by the interpreter or a library. *)
Definition throw {A} (c : pyclass) (args : list value) : M A :=
  raise_ (Exn c args None).

Definition skip : M unit := mret ().

(** *** Names *)

Definition load_global (x : string) : M value := λ k,
  match globals k !! x with
  | Some v => (Ret v, k)
  | None => (Raise (Exn NameError [VStr x] None), k)
  end.

Definition store_global (x : string) (v : value) : M unit := λ k,
  (Ret (), set_globals (<[x := v]> (globals k)) k).

(** A name assigned somewhere in a function body is local to it; reading it
    before an assignment ran raises [UnboundLocalError]. *)
Definition load_local (x : string) : M value := λ k,
  match locals k !! x with
  | Some v => (Ret v, k)
  | None => (Raise (Exn UnboundLocalError [VStr x] None), k)
  end.

Definition store_local (x : string) (v : value) : M unit := λ k,
  (Ret (), set_locals (<[x := v]> (locals k)) k).

(** A call runs the body in a frame of its own holding the parameters, and
    gives the caller's frame back when it returns or raises. *)
Definition def_ (params : list (string * value)) (body : M value) : M value := λ k,
  let '(r, k1) := body (set_locals (list_to_map params) k) in
  (r, set_locals (locals k) k1).

(** *** The [try] statement *)

(** [except C:] / [except C as e:] and the bare [except:]; the handler gets
    the exception it caught. *)
Inductive clause :=
| Except (c : pyclass) (h : exn → M unit)
| ExceptAll (h : exn → M unit).

Definition clause_matches (e : exn) (c : clause) : bool :=
  match c with
  | Except cls _ => isinstance e cls
  | ExceptAll _ => true
  end.

Definition clause_body (c : clause) : exn → M unit :=
  match c with
  | Except _ h => h
  | ExceptAll h => h
  end.

(** The first clause that matches handles the exception. *)
Fixpoint find_handler (e : exn) (hs : list clause) : option (exn → M unit) :=
  match hs with
  | [] => None
  | c :: hs' => if clause_matches e c then Some (clause_body c) else find_handler e hs'
  end.

(** [try: body / except ...: / else: orelse].  The [else] block runs when
    the body raised nothing, and what it raises is not handled here. *)
Definition try_except (body : M unit) (hs : list clause) (orelse : M unit) : M unit := λ k,
  match body k with
  | (Ret _, k1) => orelse k1
  | (Raise e, k1) =>
      match find_handler e hs with
      | Some h => h e k1
      | None => (Raise e, k1)
      end
  end.

(** [try: body / finally: fin].  [fin] always runs; what it raises replaces
    the outcome of the body. *)
Definition try_finally (body fin : M unit) : M unit := λ k,
  let '(r, k1) := body k in
  match fin k1 with
  | (Ret _, k2) => (r, k2)
  | (Raise e, k2) => (Raise e, k2)
  end.

(** *** Built-in operations *)

Definition print_ (v : value) : M unit := λ k,
  (Ret (), set_stdout (stdout k ++ [v]) k).

(** [obj[key]] with a string key: only a [dict] can answer; a sequence
    wants an integer index and the other objects cannot be subscripted. *)
Definition getitem (obj : value) (key : string) : M value :=
  match obj with
  | VDict d =>
      match d !! key with
      | Some v => mret v
      | None => throw KeyError [VStr key]
      end
  | _ => throw TypeError []
  end.

(** [open(file, mode)] in the working directory.  Reading needs the file to
    exist; writing creates or empties it.  An [int] would name a file
    descriptor, of which the model has none. *)
Definition open_ (file : value) (mode : fmode) : M value :=
  match file with
  | VStr path => λ k,
      match mode with
      | ReadMode =>
          match files k !! path with
          | Some _ =>
              (Ret (VFile (length (handles k))),
               set_handles (handles k ++ [FileObject path ReadMode false]) k)
          | None => (Raise (Exn FileNotFoundError [VStr path] None), k)
          end
      | WriteMode =>
          (Ret (VFile (length (handles k))),
           set_handles (handles k ++ [FileObject path WriteMode false])
             (set_files (<[path := ""]> (files k)) k))
      end
  | VInt _ | VBool _ => throw OSError []
  | _ => throw TypeError []
  end.

(** [f.close()]; closing twice is allowed. *)
Definition close (f : value) : M unit :=
  match f with
  | VFile fd => λ k,
      match handles k !! fd with
      | Some fo =>
          (Ret (), set_handles (<[fd := FileObject (f_name fo) (f_mode fo) true]> (handles k)) k)
      | None => (Raise (Exn ValueError [] None), k)
      end
  | _ => throw AttributeError [VStr "close"]
  end.

(** [f.read()]: the whole content of the file behind [f]. *)
Definition read (f : value) : M string :=
  match f with
  | VFile fd => λ k,
      match handles k !! fd with
      | Some fo =>
          if f_closed fo then (Raise (Exn ValueError [] None), k)
          else match f_mode fo with
               | WriteMode => (Raise (Exn UnsupportedOperation [] None), k)
               | ReadMode =>
                   match files k !! f_name fo with
                   | Some content => (Ret content, k)
                   | None => (Ret "", k)
                   end
               end
      | None => (Raise (Exn ValueError [] None), k)
      end
  | _ => throw AttributeError [VStr "read"]
  end.

(** [f.write(s)] appends to the file behind [f]. *)
Definition write (f : value) (s : string) : M unit :=
  match f with
  | VFile fd => λ k,
      match handles k !! fd with
      | Some fo =>
          if f_closed fo then (Raise (Exn ValueError [] None), k)
          else match f_mode fo with
               | ReadMode => (Raise (Exn UnsupportedOperation [] None), k)
               | WriteMode =>
                   (Ret (),
                    set_files (<[f_name fo := default "" (files k !! f_name fo) +:+ s]> (files k)) k)
               end
      | None => (Raise (Exn ValueError [] None), k)
      end
  | _ => throw AttributeError [VStr "write"]
  end.

(** [with open(file, mode) as f: body]: the file is closed on the way out,
    whether the body raised or not. *)
Definition with_open (file : value) (mode : fmode) (body : value → M unit) : M unit :=
  f ← open_ file mode;
  try_finally (body f) (close f).

(** [raise v]: [v] is an exception instance, or an exception class, which is
    then called without arguments. *)
Definition raise_value {A} (v : value) : M A :=
  match v with
  | VExc e => if isinstance e BaseException then raise_ e else throw TypeError []
  | VClass c => if issubclass c BaseException then raise_ (Exn c [] None) else throw TypeError []
  | _ => throw TypeError []
  end.

(** [x = e] inside a function and at the top of a cell. *)
Definition assign_local (x : string) (e : M value) : M unit :=
  v ← e; store_local x v.
Definition assign_global (x : string) (e : M value) : M unit :=
  v ← e; store_global x v.

(** [import m]; both modules the notebooks import are installed. *)
Definition import_ (m : string) : M unit := store_global m (VModule m).

(** [class name(base): ...] *)
Definition class_ (name : string) (base : pyclass) : M unit :=
  store_global name (VClass (UserClass name base)).

(** The attributes the notebooks ask a module for.  [yaml.lod] is not one:
    the name is mistyped in the cell that uses it. *)
Definition module_attributes : list (string * string) :=
  [("inspect", "getmro"); ("yaml", "safe_load")].

Definition getattr (obj : value) (name : string) : M value :=
  match obj with
  | VModule m =>
      if bool_decide ((m, name) ∈ module_attributes)
      then mret (VBuiltin (m +:+ "." +:+ name))
      else throw AttributeError [VStr name]
  | _ => throw AttributeError [VStr name]
  end.

(** [x == n] for an integer literal [n]. *)
Definition py_eq_int (x : value) (n : Z) : bool :=
  match x with
  | VInt z => bool_decide (z = n)
  | VBool b => bool_decide ((if b then 1 else 0)%Z = n)
  | VFloat num den => bool_decide (num = (n * den)%Z)
  | _ => false
  end.

(** [type(x) == dict] *)
Definition is_dict (x : value) : bool :=
  match x with
  | VDict _ => true
  | _ => false
  end.

(** [iter(x)]: what a [for] loop runs over. *)
Definition py_iter (x : value) : M (list value) :=
  match x with
  | VList items | VTuple items => mret items
  | VStr s => mret ((λ c, VStr (String c "")) <$> String.list_ascii_of_string s)
  | VDict d => mret ((λ kv, VStr kv.1) <$> map_to_list d)
  | _ => throw TypeError []
  end.

(** [for x in items: body]; the body starts with the assignment to the
    loop variable. *)
Fixpoint for_ {A} (items : list A) (body : A → M unit) : M unit :=
  match items with
  | [] => skip
  | x :: rest => body x;; for_ rest body
  end.

(** [range(n)] *)
Definition range (n : Z) : list Z := seqZ 0 n.

(** [name.append(v)] for a list bound to a global name. *)
Definition append (name : string) (v : value) : M unit :=
  l ← load_global name;
  match l with
  | VList items => store_global name (VList (items ++ [v]))
  | _ => throw AttributeError [VStr "append"]
  end.

(** [[elt for x in items if cond]]: the interpreter starts from an empty
    list and appends to it for each item that passes the test. *)
Fixpoint list_comp_from {A} (acc : list value) (items : list A)
    (cond : A → bool) (elt : A → value) : list value :=
  match items with
  | [] => acc
  | x :: rest => list_comp_from (if cond x then acc ++ [elt x] else acc) rest cond elt
  end.

Definition list_comp {A} (items : list A) (cond : A → bool) (elt : A → value) : value :=
  VList (list_comp_from [] items cond elt).

(** [{key: val for x in items}]: a later item replaces an earlier one with
    the same key. *)
Definition dict_comp {A} (items : list A) (key : A → string) (val : A → value) : value :=
  VDict (foldl (λ d x, <[key x := val x]> d) ∅ items).

(** [str(n)], [s * n], [s.lower()] and [c in s] for a character [c]. *)
Definition str_int (n : Z) : string := pretty n.

Fixpoint str_repeat (s : string) (n : nat) : string :=
  match n with
  | O => ""
  | S m => s +:+ str_repeat s m
  end.

Definition lower_ascii (c : ascii) : ascii :=
  let n := nat_of_ascii c in
  if bool_decide (65 ≤ n ≤ 90) then ascii_of_nat (n + 32) else c.

Definition char_in (c : ascii) (s : string) : bool :=
  bool_decide (c ∈ String.list_ascii_of_string s).

(** ["".join(items)] *)
Definition join_chars (items : list ascii) : string := String.string_of_list_ascii items.

Definition any_ (l : list bool) : bool := existsb id l.
Definition all_ (l : list bool) : bool := forallb id l.

(** [max] of a list of integers; the empty list has none. *)
Definition max_ (l : list Z) : M value :=
  match l with
  | [] => throw ValueError []
  | x :: rest => mret (VInt (foldl Z.max x rest))
  end.

Definition sum_ (l : list Z) : Z := foldl Z.add 0%Z l.

Definition nl : string := String "010"%char "".

(** [a / b] on integers. *)
Definition truediv (a b : Z) : M value :=
  if bool_decide (b = 0%Z) then throw ZeroDivisionError [VStr "division by zero"]
  else mret (VFloat a b).

(** ** The functions of the exceptions notebook *)

Section Notebook.

(** The YAML parser is a library: what [yaml.safe_load] makes of a
    document is a parameter of the development. *)
Variable yaml_parse : string → exn + value.

Definition yaml_safe_load (stream : value) : M value :=
  match stream with
  | VStr s =>
      match yaml_parse s with
      | inl e => raise_ e
      | inr v => mret v
      end
  | VFile _ =>
      s ← read stream;
      match yaml_parse s with
      | inl e => raise_ e
      | inr v => mret v
      end
  | _ => throw AttributeError [VStr "read"]
  end.

Definition call_builtin (name : string) (args : list value) : M value :=
  if bool_decide (name = "yaml.safe_load") then
    match args with
    | [stream] => yaml_safe_load stream
    | _ => throw TypeError []
    end
  else if bool_decide (name = "inspect.getmro") then
    match args with
    | [VClass c] => mret (VTuple (VClass <$> getmro c))
    | [_] => throw AttributeError [VStr "__mro__"]
    | _ => throw TypeError []
    end
  else throw TypeError [].

(** [yaml.safe_load(arg)]: the module is looked up in the kernel namespace
    and asked for the function before the argument is evaluated. *)
Definition call_yaml_safe_load (arg : M value) : M value :=
  yaml ← load_global "yaml";
  safe_load ← getattr yaml "safe_load";
  a ← arg;
  match safe_load with
  | VBuiltin b => call_builtin b [a]
  | _ => throw TypeError []
  end.

(** First version: [try] with two [except] clauses. *)
Definition read_credentials_1 (source : value) : M value :=
  def_ [("source", source)]
    (try_except
       (assign_local "datasource" (s ← load_local "source"; open_ s ReadMode);;
        assign_local "config" (call_yaml_safe_load (load_local "datasource"));;
        assign_local "user" (c ← load_local "config"; getitem c "userid");;
        assign_local "password" (c ← load_local "config"; getitem c "password");;
        d ← load_local "datasource"; close d)
       [Except FileNotFoundError (λ _,
          print_ (VStr "Password file missing");;
          store_local "user" (VStr "anonymous");;
          store_local "password" VNone);
        Except KeyError (λ _,
          print_ (VStr "Expected keys not found in file");;
          store_local "user" (VStr "anonymous");;
          store_local "password" VNone)]
       skip;;
     user ← load_local "user";
     password ← load_local "password";
     mret (VTuple [user; password])).

(** Second version: one [except] clause and a [finally] clause. *)
Definition read_credentials_2 (source : value) : M value :=
  def_ [("source", source)]
    (try_finally
       (try_except
          (assign_local "datasource" (s ← load_local "source"; open_ s ReadMode);;
           assign_local "config" (call_yaml_safe_load (load_local "datasource"));;
           assign_local "user" (c ← load_local "config"; getitem c "userid");;
           assign_local "password" (c ← load_local "config"; getitem c "password"))
          [Except FileNotFoundError (λ _,
             store_local "user" (VStr "anonymous");;
             store_local "password" VNone)]
          skip)
       (d ← load_local "datasource"; close d);;
     user ← load_local "user";
     password ← load_local "password";
     mret (VTuple [user; password])).

(** Third version: [except], [else] and [finally]. *)
Definition read_credentials_3 (source : value) : M value :=
  def_ [("source", source)]
    (try_finally
       (try_except
          (assign_local "datasource" (s ← load_local "source"; open_ s ReadMode))
          [Except FileNotFoundError (λ _,
             store_local "user" (VStr "anonymous");;
             store_local "password" VNone)]
          (assign_local "config" (call_yaml_safe_load (load_local "datasource"));;
           assign_local "user" (c ← load_local "config"; getitem c "userid");;
           assign_local "password" (c ← load_local "config"; getitem c "password")))
       (d ← load_local "datasource"; close d);;
     user ← load_local "user";
     password ← load_local "password";
     mret (VTuple [user; password])).

Definition f4 (x : value) : M value :=
  def_ [("x", x)]
    (x0 ← load_local "x";
     if py_eq_int x0 0 then mret VNone else
     x1 ← load_local "x";
     if py_eq_int x1 1 then raise_ (Exn ArithmeticError [] None) else
     x2 ← load_local "x";
     if py_eq_int x2 2 then raise_ (Exn SyntaxError [] None) else
     x3 ← load_local "x";
     if py_eq_int x3 3 then raise_ (Exn TypeError [] None) else
     mret VNone).

(** The functions below call others, which Python finds by name in the
    kernel namespace when the call runs; [call] is the interpreter's call
    operation. *)
Section Calls.
Variable call : value → list value → M value.

Definition f3 (x : value) : M value :=
  def_ [("x", x)]
    (try_except
       (print_ (VStr "F3Before");;
        f ← load_global "f4"; a ← load_local "x"; call f [a];;
        print_ (VStr "F3After"))
       [Except ArithmeticError (λ _, print_ (VStr "F3Except (💣)"))]
       skip;;
     mret VNone).

Definition f2 (x : value) : M value :=
  def_ [("x", x)]
    (try_except
       (print_ (VStr "F2Before");;
        f ← load_global "f3"; a ← load_local "x"; call f [a];;
        print_ (VStr "F2After"))
       [Except SyntaxError (λ _, print_ (VStr "F2Except (💣)"))]
       skip;;
     mret VNone).

Definition f1 (x : value) : M value :=
  def_ [("x", x)]
    (try_except
       (print_ (VStr "F1Before");;
        f ← load_global "f2"; a ← load_local "x"; call f [a];;
        print_ (VStr "F1After"))
       [Except TypeError (λ _, print_ (VStr "F1Except (💣)"))]
       skip;;
     mret VNone).

Definition lower_function : M value :=
  def_ [] (raise_ (Exn ValueError [VStr "Error in lower function!"] None)).

Definition higher_function : M value :=
  def_ []
    (try_except
       (f ← load_global "lower_function"; call f [];; skip)
       [Except ValueError (λ e,
          raise_ (Exn RuntimeError [VStr "Error in higher function!"] (Some e)))]
       skip;;
     mret VNone).

End Calls.

(** First version of [analysis]: test the type of the argument. *)
Definition analysis_1 (source : value) : M value :=
  def_ [("source", source)]
    (s ← load_local "source";
     (if is_dict s then
        assign_local "name" (s ← load_local "source"; getitem s "modelname")
      else
        assign_local "content" (s ← load_local "source"; open_ s ReadMode);;
        assign_local "source" (call_yaml_safe_load (load_local "content"));;
        assign_local "name" (s ← load_local "source"; getitem s "modelname"));;
     name ← load_local "name"; print_ name;;
     mret VNone).

(** Second version: try the subscript and handle [TypeError]. *)
Definition analysis_2 (source : value) : M value :=
  def_ [("source", source)]
    (try_except
       (assign_local "name" (s ← load_local "source"; getitem s "modelname"))
       [Except TypeError (λ _,
          assign_local "content" (s ← load_local "source"; open_ s ReadMode);;
          assign_local "source" (call_yaml_safe_load (load_local "content"));;
          assign_local "name" (s ← load_local "source"; getitem s "modelname"))]
       skip;;
     name ← load_local "name"; print_ name;;
     mret VNone).

(** Final version: a second [try] inside the handler. *)
Definition analysis_3 (source : value) : M value :=
  def_ [("source", source)]
    (try_except
       (assign_local "name" (s ← load_local "source"; getitem s "modelname"))
       [Except TypeError (λ _,
          try_except
            (assign_local "content" (s ← load_local "source"; open_ s ReadMode);;
             assign_local "source" (call_yaml_safe_load (load_local "content"));;
             assign_local "name" (s ← load_local "source"; getitem s "modelname"))
            [Except IOError (λ _,
               assign_local "source" (call_yaml_safe_load (load_local "source"));;
               assign_local "name" (s ← load_local "source"; getitem s "modelname"))]
            skip)]
       skip;;
     name ← load_local "name"; print_ name;;
     mret VNone).

(** ** Calls *)

(** The body behind a function value, applied to the arguments of a call. *)
Definition apply_fun (call : value → list value → M value)
    (f : fname) (args : list value) : M value :=
  match f, args with
  | fn_read_credentials_1, [source] => read_credentials_1 source
  | fn_read_credentials_2, [source] => read_credentials_2 source
  | fn_read_credentials_3, [source] => read_credentials_3 source
  | fn_f1, [x] => f1 call x
  | fn_f2, [x] => f2 call x
  | fn_f3, [x] => f3 call x
  | fn_f4, [x] => f4 x
  | fn_analysis_1, [source] => analysis_1 source
  | fn_analysis_2, [source] => analysis_2 source
  | fn_analysis_3, [source] => analysis_3 source
  | fn_lower_function, [] => lower_function
  | fn_higher_function, [] => higher_function call
  | _, _ => throw TypeError []
  end.

(** [f(args)] with [depth] frames left before the interpreter gives up with
    [RecursionError].  Calling a class makes an instance of it. *)
Fixpoint call_at (depth : nat) (f : value) (args : list value) : M value :=
  match depth with
  | O => throw RecursionError []
  | S d =>
      match f with
      | VFun fn => apply_fun (call_at d) fn args
      | VBuiltin b => call_builtin b args
      | VClass c => mret (VExc (Exn c args None))
      | _ => throw TypeError []
      end
  end.

Definition recursion_limit : nat := 1000.

Definition call : value → list value → M value := call_at recursion_limit.

(** ** The cells of the exceptions notebook

    A cell is a computation on the kernel; its value is what the notebook
    shows under it ([None] shows nothing). *)

Definition cell : Type := M value.

(** [name(arg)] for a function bound in the kernel namespace. *)
Definition call_global (name : string) (args : list value) : M value :=
  f ← load_global name; call f args.

Definition exc_cell_01 : cell := truediv 1 0.

Definition exc_cell_02 : cell :=
  import_ "inspect";;
  m ← load_global "inspect"; getmro_ ← getattr m "getmro";
  call getmro_ [VClass ZeroDivisionError].

Definition exc_cell_03 : cell :=
  store_global "x" (VInt 1);;
  (x ← load_global "x"; items ← py_iter x;
   for_ items (λ y, store_global "y" y;; v ← load_global "y"; print_ v));;
  mret VNone.

Definition exc_cell_04 : cell :=
  m ← load_global "inspect"; getmro_ ← getattr m "getmro";
  call getmro_ [VClass TypeError].

Definition exc_cell_05 : cell :=
  class_ "MyCustomErrorType" ArithmeticError;;
  e ← call_global "MyCustomErrorType" [VStr "Problem"];
  raise_value e.

Definition exc_cell_06 : cell :=
  class_ "MyCustomErrorType" Exception;;
  e ← call_global "MyCustomErrorType" [VInt 404];
  raise_value e.

Definition exc_cell_07 : cell :=
  import_ "yaml";;
  try_except
    (assign_global "config"
       (call_yaml_safe_load (open_ (VStr "datasource.yaml") ReadMode));;
     assign_global "user" (c ← load_global "config"; getitem c "userid");;
     assign_global "password" (c ← load_global "config"; getitem c "password"))
    [Except FileNotFoundError (λ _,
       print_ (VStr "No password file found, using anonymous user.");;
       store_global "user" (VStr "anonymous");;
       store_global "password" VNone)]
    skip;;
  (u ← load_global "user"; print_ u);;
  mret VNone.

Definition exc_cell_08 : cell :=
  try_except
    (assign_global "config"
       (yaml ← load_global "yaml"; lod ← getattr yaml "lod";
        a ← open_ (VStr "datasource.yaml") ReadMode;
        call lod [a]);;
     assign_global "user" (c ← load_global "config"; getitem c "userid");;
     assign_global "password" (c ← load_global "config"; getitem c "password"))
    [ExceptAll (λ _,
       store_global "user" (VStr "anonymous");;
       store_global "password" VNone)]
    skip;;
  (u ← load_global "user"; print_ u);;
  mret VNone.

Definition exc_cell_09 : cell :=
  with_open (VStr "datasource2.yaml") WriteMode (λ f,
    store_global "outfile" f;;
    (o ← load_global "outfile"; write o ("userid: eidle" +:+ nl));;
    (o ← load_global "outfile"; write o ("password: secret" +:+ nl)));;
  with_open (VStr "datasource3.yaml") WriteMode (λ f,
    store_global "outfile" f;;
    (o ← load_global "outfile"; write o ("user: eidle" +:+ nl));;
    (o ← load_global "outfile"; write o ("password: secret" +:+ nl)));;
  mret VNone.

Definition exc_cell_10 : cell :=
  store_global "read_credentials" (VFun fn_read_credentials_1);; mret VNone.

Definition exc_cell_11 : cell :=
  (r ← call_global "read_credentials" [VStr "datasource2.yaml"]; print_ r);;
  mret VNone.

Definition exc_cell_12 : cell :=
  (r ← call_global "read_credentials" [VStr "datasource.yaml"]; print_ r);;
  mret VNone.

Definition exc_cell_13 : cell :=
  (r ← call_global "read_credentials" [VStr "datasource3.yaml"]; print_ r);;
  mret VNone.

Definition exc_cell_14 : cell :=
  store_global "read_credentials" (VFun fn_read_credentials_2);; mret VNone.

Definition exc_cell_15 : cell :=
  store_global "read_credentials" (VFun fn_read_credentials_3);; mret VNone.

Definition exc_cell_16 : cell := store_global "f4" (VFun fn_f4);; mret VNone.
Definition exc_cell_17 : cell := store_global "f3" (VFun fn_f3);; mret VNone.
Definition exc_cell_18 : cell := store_global "f2" (VFun fn_f2);; mret VNone.
Definition exc_cell_19 : cell := store_global "f1" (VFun fn_f1);; mret VNone.

Definition exc_cell_20 : cell := call_global "f1" [VInt 0].
Definition exc_cell_21 : cell := call_global "f1" [VInt 1].
Definition exc_cell_22 : cell := call_global "f1" [VInt 2].
Definition exc_cell_23 : cell := call_global "f1" [VInt 3].

Definition exc_cell_24 : cell :=
  import_ "yaml";;
  store_global "analysis" (VFun fn_analysis_1);; mret VNone.

Definition exc_cell_25 : cell :=
  call_global "analysis" [VDict {[ "modelname" := VStr "Super" ]}].

Definition exc_cell_26 : cell :=
  with_open (VStr "example.yaml") WriteMode (λ f,
    store_global "outfile" f;;
    (o ← load_global "outfile"; write o ("modelname: brilliant" +:+ nl)));;
  mret VNone.

Definition exc_cell_27 : cell := call_global "analysis" [VStr "example.yaml"].

Definition exc_cell_28 : cell :=
  store_global "analysis" (VFun fn_analysis_2);;
  call_global "analysis" [VStr "example.yaml"].

Definition exc_cell_29 : cell :=
  store_global "analysis" (VFun fn_analysis_3);;
  call_global "analysis" [VStr "modelname: Amazing"].

Definition exc_cell_30 : cell :=
  try_except skip [ExceptAll (λ e, raise_ e)] skip;;
  mret VNone.

Definition exc_cell_31 : cell :=
  store_global "lower_function" (VFun fn_lower_function);;
  store_global "higher_function" (VFun fn_higher_function);;
  call_global "higher_function" [].

Definition exceptions_notebook : list cell :=
  [exc_cell_01; exc_cell_02; exc_cell_03; exc_cell_04; exc_cell_05; exc_cell_06;
   exc_cell_07; exc_cell_08; exc_cell_09; exc_cell_10; exc_cell_11; exc_cell_12;
   exc_cell_13; exc_cell_14; exc_cell_15; exc_cell_16; exc_cell_17; exc_cell_18;
   exc_cell_19; exc_cell_20; exc_cell_21; exc_cell_22; exc_cell_23; exc_cell_24;
   exc_cell_25; exc_cell_26; exc_cell_27; exc_cell_28; exc_cell_29; exc_cell_30;
   exc_cell_31].

End Notebook.

(** ** The cells of the comprehensions notebook *)

Definition comp_cell_01 : cell :=
  mret (list_comp (range 10) (λ _, true) (λ x, VInt (2 ^ x))).

Definition comp_cell_02 : cell :=
  store_global "result" (VList []);;
  for_ (range 10) (λ x,
    store_global "x" (VInt x);;
    append "result" (VInt (2 ^ x)));;
  load_global "result".

Definition comp_cell_03 : cell :=
  mret (list_comp (range 10) (λ _, true)
          (λ x, VInt (Z.of_nat (String.length (str_int (2 ^ x)))))).

Definition comp_cell_04 : cell :=
  mret (list_comp (range 30) (λ x, bool_decide (x `mod` 3 = 0)%Z) (λ x, VInt (2 ^ x))).

Definition comp_cell_05 : cell :=
  mret (VStr (join_chars
    (omap (λ v, match v with VStr (String c "") => Some c | _ => None end)
       (list_comp_from [] (String.list_ascii_of_string "Eric Idle")
          (λ letter, negb (char_in (lower_ascii letter) "aeiou"))
          (λ letter, VStr (String letter "")))))).

Definition comp_cell_06 : cell :=
  store_global "result" (VList []);;
  for_ (range 30) (λ x,
    store_global "x" (VInt x);;
    if bool_decide (x `mod` 3 = 0)%Z then append "result" (VInt (2 ^ x)) else skip);;
  load_global "result".

(** Two [for] clauses in one comprehension run as nested loops over one
    list, the first clause outermost. *)
Definition comp_cell_07 : cell :=
  mret (list_comp (x ← range 4; y ← range 4; [(x, y)])
          (λ _, true) (λ xy, VInt (xy.1 - xy.2))).

Definition comp_cell_08 : cell :=
  mret (list_comp (x ← range 4; y ← range 4; [(x, y)])
          (λ xy, bool_decide (xy.2 ≤ xy.1)%Z) (λ xy, VInt (xy.1 - xy.2))).

Definition comp_cell_09 : cell :=
  mret (list_comp (range 4) (λ _, true)
          (λ y, list_comp (range 4) (λ _, true) (λ x, VInt (x - y)))).

Definition comp_cell_10 : cell :=
  mret (list_comp (x ← ["a"; "b"; "c"]; y ← ["1"; "2"; "3"]; [(x, y)])
          (λ _, true) (λ xy, VStr (xy.1 +:+ xy.2))).

Definition comp_cell_11 : cell :=
  mret (list_comp ["1"; "2"; "3"] (λ _, true)
          (λ y, list_comp ["a"; "b"; "c"] (λ _, true) (λ x, VStr (x +:+ y)))).

Definition comp_cell_12 : cell :=
  mret (dict_comp (range 3) (λ x, str_repeat (str_int x) 3) VInt).

Definition comp_cell_13 : cell := mret (VBool (any_ [true; false; true])).
Definition comp_cell_14 : cell := mret (VBool (all_ [true; false; true])).
Definition comp_cell_15 : cell := max_ [1; 2; 3]%Z.
Definition comp_cell_16 : cell := mret (VInt (sum_ [1; 2; 3]%Z)).

Definition comp_cell_17 : cell :=
  mret (list_comp (range 10) (λ _, true) (λ x, VStr (str_int x))).

Definition comp_cell_18 : cell :=
  mret (VList ((λ x, VStr (str_int x)) <$> range 10)).

Definition comp_cell_19 : cell :=
  mret (VDict (<["living" := VInt 2]> (<["kitchen" := VInt 1]>
         (<["garden" := VInt 3]> {[ "bedroom" := VInt 1 ]})))).

Definition comp_cell_20 : cell :=
  mret (VDict (<["living" := VInt 1]> {[ "garden" := VInt 1 ]})).

Definition comprehensions_notebook : list cell :=
  [comp_cell_01; comp_cell_02; comp_cell_03; comp_cell_04; comp_cell_05;
   comp_cell_06; comp_cell_07; comp_cell_08; comp_cell_09; comp_cell_10;
   comp_cell_11; comp_cell_12; comp_cell_13; comp_cell_14; comp_cell_15;
   comp_cell_16; comp_cell_17; comp_cell_18; comp_cell_19; comp_cell_20].

(** ** Running a notebook *)

(** A kernel that has run nothing, in an empty working directory. *)
Definition fresh : kernel := Kernel ∅ ∅ ∅ [] [].

(** What a reader sees of a cell: how it ended and what it printed. *)
Definition observe (c : cell) (k : kernel) : (outcome value * list value) * kernel :=
  let '(r, k1) := c k in
  ((r, drop (length (stdout k)) (stdout k1)), k1).

(** The cells in order on one kernel; a cell that raises ends alone, the
    kernel goes on with the next cell. *)
Fixpoint run_cells (cs : list cell) (k : kernel)
    : list (outcome value * list value) * kernel :=
  match cs with
  | [] => ([], k)
  | c :: rest =>
      let '(o, k1) := observe c k in
      let '(os, k2) := run_cells rest k1 in
      (o :: os, k2)
  end.

Definition run_in_sequence (cs : list cell) : list (outcome value * list value) :=
  (run_cells cs fresh).1.

(** Each cell alone on a fresh kernel. *)
Definition run_in_isolation (cs : list cell) : list (outcome value * list value) :=
  (λ c, (observe c fresh).1) <$> cs.

Definition returns {A} (o : outcome A) : bool :=
  match o with
  | Ret _ => true
  | Raise _ => false
  end.

Definition raises {A} (o : outcome A) (c : pyclass) : bool :=
  match o with
  | Ret _ => false
  | Raise e => bool_decide (exc_class e = c)
  end.

(** ** A loader for flat YAML documents

    Enough of YAML to read the fixture files of the notebook: a document of
    [key: value] lines is a mapping of strings, a single line without a
    colon is a string, and the empty document is [None]. *)

Fixpoint lines_from (cur : string) (s : string) : list string :=
  match s with
  | EmptyString => [cur]
  | String c rest =>
      if Ascii.eqb c "010"%char then cur :: lines_from "" rest
      else lines_from (cur +:+ String c "") rest
  end.

Fixpoint split_colon (key : string) (s : string) : option (string * string) :=
  match s with
  | EmptyString => None
  | String c rest =>
      match c, rest with
      | ":"%char, String " "%char val => Some (key, val)
      | _, _ => split_colon (key +:+ String c "") rest
      end
  end.

Definition flat_yaml_parse (s : string) : exn + value :=
  let ls := List.filter (λ l, negb (String.eqb l "")) (lines_from "" s) in
  match ls with
  | [] => inr VNone
  | l :: others =>
      match mapM (split_colon "") ls with
      | Some kvs => inr (VDict (foldl (λ d kv, <[kv.1 := VStr kv.2]> d) ∅ kvs))
      | None =>
          match others with
          | [] => inr (VStr l)
          | _ => inl (Exn YAMLError [] None)
          end
      end
  end.

(** ** Shapes the statements below refer to *)

(** The accumulation loop of the comprehensions notebook over any items:
    [result = []], then for each item bind the loop variable and append
    when the test holds, then show [result]. *)
Definition append_if {A} (inj : A → value) (cond : A → bool) (elt : A → value)
    (x : A) : M unit :=
  store_global "x" (inj x);;
  if cond x then append "result" (elt x) else skip.

Definition append_loop {A} (items : list A) (inj : A → value)
    (cond : A → bool) (elt : A → value) : cell :=
  store_global "result" (VList []);;
  for_ items (append_if inj cond elt);;
  load_global "result".

(** The kernel a notebook leaves behind after some of its cells. *)
Definition kernel_after (cs : list cell) : kernel := (run_cells cs fresh).2.

(** The cells that ended with an exception, by position, with its class. *)
Definition uncaught (os : list (outcome value * list value)) : list (nat * pyclass) :=
  omap (λ io, match io.2.1 with
              | Ret _ => None
              | Raise e => Some (io.1, exc_class e)
              end)
       (imap pair os).

(** What [read_credentials] returns for a user it could not identify. *)
Definition anonymous : value := VTuple [VStr "anonymous"; VNone].

(** The fixture documents the exceptions notebook writes or passes. *)
Definition datasource2_yaml : string := "userid: eidle" +:+ nl +:+ "password: secret" +:+ nl.
Definition datasource3_yaml : string := "user: eidle" +:+ nl +:+ "password: secret" +:+ nl.
Definition example_yaml : string := "modelname: brilliant" +:+ nl.
Definition raw_yaml : string := "modelname: Amazing".

(** A parser reads the fixtures as YAML does. *)
Definition reads_fixtures (yaml_parse : string → exn + value) : Prop :=
  yaml_parse datasource2_yaml
    = inr (VDict (<["password" := VStr "secret"]> {[ "userid" := VStr "eidle" ]}))
  ∧ yaml_parse datasource3_yaml
    = inr (VDict (<["password" := VStr "secret"]> {[ "user" := VStr "eidle" ]}))
  ∧ yaml_parse example_yaml = inr (VDict {[ "modelname" := VStr "brilliant" ]})
  ∧ yaml_parse raw_yaml = inr (VDict {[ "modelname" := VStr "Amazing" ]}).

(** The cells of the exceptions notebook (counted from 0) that use a name
    or a file only an earlier cell provides. *)
Definition dependent_cells : list nat := [3; 10; 11; 12; 19; 20; 21; 22; 24; 26; 27; 28].

(** A parser that reads the fixtures with the flat loader and everything
    else as [yaml_parse] does. *)
Definition patch (yaml_parse : string → exn + value) (s : string) : exn + value :=
  if bool_decide (s ∈ [datasource2_yaml; datasource3_yaml; example_yaml; raw_yaml])
  then flat_yaml_parse s
  else yaml_parse s.

(** The exceptions notebook with the flat loader, and the kernels it
    leaves: after the cell that defines the first [read_credentials] (YAML
    imported, fixture files written), after the cells that define [f4] to
    [f1], and after the cell that writes [example.yaml]. *)
Definition flat_notebook : list cell := exceptions_notebook flat_yaml_parse.
Definition credentials_kernel : kernel := kernel_after (take 10 flat_notebook).
Definition functions_kernel : kernel := kernel_after (take 19 flat_notebook).
Definition analysis_kernel : kernel := kernel_after (take 26 flat_notebook).

(** ** Further shapes and kernels *)

(** The cell that drops the vowels of ["Eric Idle"], for any string:
    [comp_cell_05] is [mret (VStr (consonants "Eric Idle"))]. *)
Definition consonants (s : string) : string :=
  join_chars
    (omap (λ v, match v with VStr (String c "") => Some c | _ => None end)
       (list_comp_from [] (String.list_ascii_of_string s)
          (λ letter, negb (char_in (lower_ascii letter) "aeiou"))
          (λ letter, VStr (String letter "")))).

(** The names of the file objects of a kernel that were not closed. *)
Definition open_files (k : kernel) : list string :=
  f_name <$> List.filter (λ fo, negb (f_closed fo)) (handles k).

(** A parser that fails on every document with [FileNotFoundError], as one
    that resolves includes could. *)
Definition failing_parse (s : string) : exn + value :=
  inl (Exn FileNotFoundError [VStr s] None).

(** The kernel of [credentials_kernel] with one more file, whose document is
    a plain string. *)
Definition scalar_kernel : kernel :=
  set_files (<["scalar.yaml" := "just text"]> (files credentials_kernel))
    credentials_kernel.

(** A fresh kernel in a directory that holds [datasource.yaml]. *)
Definition datasource_kernel (content : string) : kernel :=
  set_files {[ "datasource.yaml" := content ]} fresh.

Arguments call_at _ _ _ _ : simpl never.

(** * Properties *)

(** ** Symbolic execution *)

Lemma lookup_snoc {A} (l : list A) (x : A) : (l ++ [x]) !! length l = Some x.
Proof. by apply list_lookup_middle. Qed.

Lemma insert_snoc {A} (l : list A) (x y : A) : <[length l := y]> (l ++ [x]) = l ++ [y].
Proof. rewrite insert_app_r_alt by lia. by rewrite Nat.sub_diag. Qed.

Lemma isinstance_class c a o d : isinstance (Exn c a o) d = issubclass c d.
Proof. done. Qed.

Ltac unfold_py :=
  unfold read_credentials_1, read_credentials_2, read_credentials_3,
    f1, f2, f3, f4, lower_function, higher_function,
    analysis_1, analysis_2, analysis_3,
    assign_local, assign_global, import_, class_, with_open,
    call_yaml_safe_load, call_builtin, yaml_safe_load, call_global, skip, throw,
    try_except, try_finally, def_, load_local, store_local, load_global,
    store_global, print_, raise_, mbind, M_bind, mret, M_ret,
    set_globals, set_locals, set_files, set_handles, set_stdout.

(** Settle a decidable closed goal by evaluation. *)
Ltac decide_goal :=
  match goal with |- ?P => apply (bool_decide_unpack P); vm_compute; exact I end.

(** Decide a test on closed terms by evaluation. *)
Ltac eval_bool :=
  match goal with
  | |- context [issubclass ?c ?d] =>
      let b := eval vm_compute in (issubclass c d) in
      lazymatch b with
      | true => change (issubclass c d) with true
      | false => change (issubclass c d) with false
      end
  | |- context [@bool_decide ?P ?D] =>
      let b := eval vm_compute in (@bool_decide P D) in
      lazymatch b with
      | true => change (@bool_decide P D) with true
      | false => change (@bool_decide P D) with false
      end
  end.

Ltac map_step :=
  first [ rewrite lookup_insert_eq
        | rewrite lookup_insert_ne by done
        | rewrite lookup_empty
        | rewrite lookup_snoc
        | rewrite insert_snoc
        | rewrite isinstance_class
        | match goal with H : _ !! _ = _ |- _ => rewrite H end
        | match goal with H : _ _ = inr _ |- _ => rewrite H end
        | match goal with H : _ _ = inl _ |- _ => rewrite H end ].

Lemma call_at_fun yaml_parse d fn args :
  call_at yaml_parse (S d) (VFun fn) args
  = apply_fun yaml_parse (call_at yaml_parse d) fn args.
Proof. done. Qed.

Lemma call_at_builtin yaml_parse d b args :
  call_at yaml_parse (S d) (VBuiltin b) args = call_builtin yaml_parse b args.
Proof. done. Qed.

Ltac call_step := first [ rewrite call_at_fun | rewrite call_at_builtin ].

(** Run a computation on a kernel given by its fields, using the
    hypotheses about what the namespace, the directory and the parser hold. *)
Ltac run_py :=
  repeat first [ progress unfold_py | progress cbn | map_step | eval_bool | call_step ].

(** ** Comprehensions *)

Lemma list_comp_from_spec {A} (items : list A) cond elt :
  ∀ acc, list_comp_from acc items cond elt = acc ++ (elt <$> List.filter cond items).
Proof.
  induction items as [|x rest IH]; intros acc; cbn.
  - by rewrite app_nil_r.
  - rewrite IH. destruct (cond x); cbn; [by rewrite <- app_assoc | done].
Qed.

Lemma for_append_spec {A} (items : list A) (inj : A → value) cond elt :
  ∀ acc k, globals k !! "result" = Some (VList acc) →
  ∃ k', for_ items (append_if inj cond elt) k = (Ret (), k')
        ∧ globals k' !! "result" = Some (VList (list_comp_from acc items cond elt)).
Proof.
  induction items as [|x rest IH]; intros acc k Hres.
  - exists k. done.
  - cbn [for_ list_comp_from]. unfold mbind at 1, M_bind at 1.
    unfold append_if at 1. unfold mbind at 1, M_bind at 1. unfold store_global at 1.
    destruct (cond x).
    + unfold append, mbind at 1, M_bind at 1, load_global.
      cbn [globals set_globals].
      rewrite lookup_insert_ne by done. rewrite Hres.
      unfold store_global.
      apply IH. cbn [globals set_globals]. by rewrite lookup_insert_eq.
    + unfold skip, mret, M_ret. apply IH.
      cbn [globals set_globals]. by rewrite lookup_insert_ne.
Qed.

Lemma append_loop_spec {A} (items : list A) inj cond elt k :
  (append_loop items inj cond elt k).1 = Ret (list_comp items cond elt).
Proof.
  unfold append_loop, mbind at 1, M_bind at 1. unfold store_global at 1.
  unfold mbind, M_bind.
  destruct (for_append_spec items inj cond elt []
              (set_globals (<["result" := VList []]> (globals k)) k))
    as (k' & -> & Hk').
  { cbn [globals set_globals]. by rewrite lookup_insert_eq. }
  unfold load_global. by rewrite Hk'.
Qed.

(** C4: a list comprehension gives the list its accumulation loop builds.
    For every bound [n], [[2 ** x for x in range(n)]] is the list the loop
    appending [2 ** x] leaves in [result], and the comprehension filtered by
    [x % 3 == 0] is the list of the loop that appends under that test; at
    10 and 30 these are the cells of the notebook, from any kernel. *)
Theorem comprehension_equals_append_loop :
  (∀ (n : Z) (k : kernel),
     (append_loop (range n) VInt (λ _, true) (λ x, VInt (2 ^ x)) k).1
       = Ret (list_comp (range n) (λ _, true) (λ x, VInt (2 ^ x)))
     ∧ (append_loop (range n) VInt (λ x, bool_decide (x `mod` 3 = 0)%Z)
          (λ x, VInt (2 ^ x)) k).1
       = Ret (list_comp (range n) (λ x, bool_decide (x `mod` 3 = 0)%Z)
                (λ x, VInt (2 ^ x))))
  ∧ (∀ k, (comp_cell_02 k).1 = (comp_cell_01 k).1)
  ∧ (∀ k, (comp_cell_06 k).1 = (comp_cell_04 k).1).
Proof.
  split; [|split].
  - intros n k. split; apply append_loop_spec.
  - intros k.
    change comp_cell_02 with (append_loop (range 10) VInt (λ _, true) (λ x, VInt (2 ^ x))).
    by rewrite append_loop_spec.
  - intros k.
    change comp_cell_06
      with (append_loop (range 30) VInt (λ x, bool_decide (x `mod` 3 = 0)%Z)
              (λ x, VInt (2 ^ x))).
    by rewrite append_loop_spec.
Qed.

(** ** The functions of the exceptions notebook *)

Section Properties.

Variable yaml_parse : string → exn + value.

(** *** [read_credentials], path by path *)

Lemma read_credentials_1_complete k source content d u p :
  globals k !! "yaml" = Some (VModule "yaml") →
  files k !! source = Some content →
  yaml_parse content = inr (VDict d) →
  d !! "userid" = Some u → d !! "password" = Some p →
  read_credentials_1 yaml_parse (VStr source) k
  = (Ret (VTuple [u; p]),
     set_handles (handles k ++ [FileObject source ReadMode true]) k).
Proof.
  intros Hy Hf Hp Hu Hpw. destruct k as [g l fs h out]. cbn in Hy, Hf.
  run_py. done.
Qed.

Lemma read_credentials_2_complete k source content d u p :
  globals k !! "yaml" = Some (VModule "yaml") →
  files k !! source = Some content →
  yaml_parse content = inr (VDict d) →
  d !! "userid" = Some u → d !! "password" = Some p →
  read_credentials_2 yaml_parse (VStr source) k
  = (Ret (VTuple [u; p]),
     set_handles (handles k ++ [FileObject source ReadMode true]) k).
Proof.
  intros Hy Hf Hp Hu Hpw. destruct k as [g l fs h out]. cbn in Hy, Hf.
  run_py. done.
Qed.

Lemma read_credentials_3_complete k source content d u p :
  globals k !! "yaml" = Some (VModule "yaml") →
  files k !! source = Some content →
  yaml_parse content = inr (VDict d) →
  d !! "userid" = Some u → d !! "password" = Some p →
  read_credentials_3 yaml_parse (VStr source) k
  = (Ret (VTuple [u; p]),
     set_handles (handles k ++ [FileObject source ReadMode true]) k).
Proof.
  intros Hy Hf Hp Hu Hpw. destruct k as [g l fs h out]. cbn in Hy, Hf.
  run_py. done.
Qed.

Lemma read_credentials_1_missing_file k source :
  files k !! source = None →
  read_credentials_1 yaml_parse (VStr source) k
  = (Ret anonymous, set_stdout (stdout k ++ [VStr "Password file missing"]) k).
Proof.
  intros Hf. destruct k as [g l fs h out]. cbn in Hf.
  run_py. done.
Qed.

Lemma read_credentials_1_missing_key k source content d :
  globals k !! "yaml" = Some (VModule "yaml") →
  files k !! source = Some content →
  yaml_parse content = inr (VDict d) →
  d !! "userid" = None ∨ d !! "password" = None →
  read_credentials_1 yaml_parse (VStr source) k
  = (Ret anonymous,
     set_stdout (stdout k ++ [VStr "Expected keys not found in file"])
       (set_handles (handles k ++ [FileObject source ReadMode false]) k)).
Proof.
  intros Hy Hf Hp Hd. destruct k as [g l fs h out]. cbn in Hy, Hf.
  destruct (d !! "userid") as [u|] eqn:Hu.
  - destruct Hd as [?|Hpw]; [done|]. run_py. done.
  - run_py. done.
Qed.

(** A document that is not a mapping cannot be subscripted with a key: the
    [TypeError] meets no handler and leaves the function, the file open. *)
Lemma read_credentials_1_not_a_mapping k source content v :
  globals k !! "yaml" = Some (VModule "yaml") →
  files k !! source = Some content →
  yaml_parse content = inr v →
  is_dict v = false →
  read_credentials_1 yaml_parse (VStr source) k
  = (Raise (Exn TypeError [] None),
     set_handles (handles k ++ [FileObject source ReadMode false]) k).
Proof.
  intros Hy Hf Hp Hv. destruct k as [g l fs h out]. cbn in Hy, Hf.
  destruct v; try discriminate Hv; run_py; done.
Qed.

(** Without a handler for it, the [KeyError] leaves the function once the
    [finally] clause has closed the file. *)
Lemma read_credentials_2_missing_key k source content d :
  globals k !! "yaml" = Some (VModule "yaml") →
  files k !! source = Some content →
  yaml_parse content = inr (VDict d) →
  d !! "userid" = None ∨ d !! "password" = None →
  ∃ key, read_credentials_2 yaml_parse (VStr source) k
         = (Raise (Exn KeyError [VStr key] None),
            set_handles (handles k ++ [FileObject source ReadMode true]) k).
Proof.
  intros Hy Hf Hp Hd. destruct k as [g l fs h out]. cbn in Hy, Hf.
  destruct (d !! "userid") as [u|] eqn:Hu.
  - destruct Hd as [?|Hpw]; [done|]. exists "password". run_py. done.
  - exists "userid". run_py. done.
Qed.

Lemma read_credentials_3_missing_key k source content d :
  globals k !! "yaml" = Some (VModule "yaml") →
  files k !! source = Some content →
  yaml_parse content = inr (VDict d) →
  d !! "userid" = None ∨ d !! "password" = None →
  ∃ key, read_credentials_3 yaml_parse (VStr source) k
         = (Raise (Exn KeyError [VStr key] None),
            set_handles (handles k ++ [FileObject source ReadMode true]) k).
Proof.
  intros Hy Hf Hp Hd. destruct k as [g l fs h out]. cbn in Hy, Hf.
  destruct (d !! "userid") as [u|] eqn:Hu.
  - destruct Hd as [?|Hpw]; [done|]. exists "password". run_py. done.
  - exists "userid". run_py. done.
Qed.

(** C1, as amended: for a readable YAML file with both keys the three
    versions of [read_credentials] return the same pair, the values under
    ['userid'] and ['password'], and leave the same kernel, in which the
    file object the call opened is closed.  For a file that lacks one of
    the keys only the first version returns [('anonymous', None)]: the
    second and the third have no handler for [KeyError], which leaves them
    once their [finally] clause has closed the file. *)
Theorem read_credentials_versions_on_existing_file
    (k : kernel) (source content : string) (d : gmap string value) :
  globals k !! "yaml" = Some (VModule "yaml") →
  files k !! source = Some content →
  yaml_parse content = inr (VDict d) →
  (∀ u p, d !! "userid" = Some u → d !! "password" = Some p →
     read_credentials_1 yaml_parse (VStr source) k
     = (Ret (VTuple [u; p]),
        set_handles (handles k ++ [FileObject source ReadMode true]) k)
     ∧ read_credentials_2 yaml_parse (VStr source) k
       = read_credentials_1 yaml_parse (VStr source) k
     ∧ read_credentials_3 yaml_parse (VStr source) k
       = read_credentials_1 yaml_parse (VStr source) k
     ∧ f_closed <$> handles (read_credentials_1 yaml_parse (VStr source) k).2
                    !! length (handles k) = Some true)
  ∧ (d !! "userid" = None ∨ d !! "password" = None →
     (read_credentials_1 yaml_parse (VStr source) k).1 = Ret anonymous
     ∧ ∃ key,
         read_credentials_2 yaml_parse (VStr source) k
         = (Raise (Exn KeyError [VStr key] None),
            set_handles (handles k ++ [FileObject source ReadMode true]) k)
         ∧ read_credentials_3 yaml_parse (VStr source) k
           = (Raise (Exn KeyError [VStr key] None),
              set_handles (handles k ++ [FileObject source ReadMode true]) k)
         ∧ f_closed <$> handles (read_credentials_2 yaml_parse (VStr source) k).2
                        !! length (handles k) = Some true
         ∧ f_closed <$> handles (read_credentials_3 yaml_parse (VStr source) k).2
                        !! length (handles k) = Some true).
Proof.
  intros Hy Hf Hp. split.
  - intros u p Hu Hpw.
    rewrite (read_credentials_2_complete k source content d u p) by done.
    rewrite (read_credentials_3_complete k source content d u p) by done.
    rewrite (read_credentials_1_complete k source content d u p) by done.
    split; [done|]. split; [done|]. split; [done|].
    cbn. by rewrite lookup_snoc.
  - intros Hd.
    split; [by rewrite (read_credentials_1_missing_key k source content d)|].
    destruct k as [g l fs h out]. cbn in Hy, Hf.
    destruct (d !! "userid") as [u|] eqn:Hu.
    + destruct Hd as [?|Hpw]; [done|]. exists "password".
      split; [run_py; done|]. split; [run_py; done|].
      split; run_py; done.
    + exists "userid".
      split; [run_py; done|]. split; [run_py; done|].
      split; run_py; done.
Qed.

(** C2: the first version of [read_credentials] returns
    [(config['userid'], config['password'])] when the file exists and holds
    both keys, and [('anonymous', None)] both when the file does not exist
    and when it exists but lacks ['userid'] or ['password']. *)
Theorem read_credentials_1_returns (k : kernel) (source : string) :
  globals k !! "yaml" = Some (VModule "yaml") →
  (files k !! source = None →
     (read_credentials_1 yaml_parse (VStr source) k).1 = Ret anonymous)
  ∧ (∀ content d, files k !! source = Some content →
       yaml_parse content = inr (VDict d) →
       (∀ u p, d !! "userid" = Some u → d !! "password" = Some p →
          (read_credentials_1 yaml_parse (VStr source) k).1 = Ret (VTuple [u; p]))
       ∧ (d !! "userid" = None ∨ d !! "password" = None →
          (read_credentials_1 yaml_parse (VStr source) k).1 = Ret anonymous)).
Proof.
  intros Hy. split.
  - intros Hf. by rewrite read_credentials_1_missing_file.
  - intros content d Hf Hp. split.
    + intros u p Hu Hpw.
      by rewrite (read_credentials_1_complete k source content d u p).
    + intros Hd. by rewrite (read_credentials_1_missing_key k source content d).
Qed.

(** C3: when the file does not exist, the third version of
    [read_credentials] does not return [('anonymous', None)]: its [finally]
    clause reads [datasource], which no assignment has bound, and the call
    raises [UnboundLocalError], a [NameError]. *)
Theorem read_credentials_3_missing_file_raises (k : kernel) (source : string) :
  files k !! source = None →
  read_credentials_3 yaml_parse (VStr source) k
  = (Raise (Exn UnboundLocalError [VStr "datasource"] None), k)
  ∧ (read_credentials_3 yaml_parse (VStr source) k).1 ≠ Ret anonymous
  ∧ issubclass UnboundLocalError NameError = true.
Proof.
  intros Hf.
  assert (read_credentials_3 yaml_parse (VStr source) k
          = (Raise (Exn UnboundLocalError [VStr "datasource"] None), k)) as ->.
  { destruct k as [g l fs h out]. cbn in Hf. run_py. done. }
  done.
Qed.

(** C10: in the first version of [read_credentials], on a file that lacks
    ['userid'] or ['password'], the [KeyError] handler returns
    [('anonymous', None)] and the file object the call opened is still open
    when the function returns: [close] did not run. *)
Theorem read_credentials_1_leaves_file_open
    (k : kernel) (source content : string) (d : gmap string value) :
  globals k !! "yaml" = Some (VModule "yaml") →
  files k !! source = Some content →
  yaml_parse content = inr (VDict d) →
  d !! "userid" = None ∨ d !! "password" = None →
  let '(r, k') := read_credentials_1 yaml_parse (VStr source) k in
  r = Ret anonymous
  ∧ handles k' = handles k ++ [FileObject source ReadMode false]
  ∧ f_closed <$> handles k' !! length (handles k) = Some false.
Proof.
  intros Hy Hf Hp Hd.
  rewrite (read_credentials_1_missing_key k source content d) by done.
  cbn. by rewrite lookup_snoc.
Qed.

(** *** The call chain [f1], [f2], [f3], [f4] *)

Ltac run_chain :=
  let g := fresh "g" in let l := fresh "l" in let fs := fresh "fs" in
  let h := fresh "h" in let out := fresh "out" in
  match goal with k : kernel |- _ => destruct k as [g l fs h out] end;
  cbn in *; run_py; rewrite <- ?app_assoc; done.

(** C5: an exception raised in [f4] travels up the calls [f1], [f2], [f3],
    [f4] past the handlers that do not match to the first that does.
    For [x = 1] the [ArithmeticError] is caught in [f3], for [x = 2] the
    [SyntaxError] leaves [f3] and is caught in [f2], for [x = 3] the
    [TypeError] leaves [f3] and [f2] and is caught in [f1]; and for each
    [x] of 0, 1, 2, 3 the call [f1(x)] returns. *)
Theorem exception_caught_by_first_matching_handler (d : nat) (k : kernel) :
  globals k !! "f2" = Some (VFun fn_f2) →
  globals k !! "f3" = Some (VFun fn_f3) →
  globals k !! "f4" = Some (VFun fn_f4) →
  let call_f1 (x : Z) := call_at yaml_parse (4 + d) (VFun fn_f1) [VInt x] k in
  let call_f2 (x : Z) := call_at yaml_parse (3 + d) (VFun fn_f2) [VInt x] k in
  let call_f3 (x : Z) := call_at yaml_parse (2 + d) (VFun fn_f3) [VInt x] k in
  let call_f4 (x : Z) := call_at yaml_parse (1 + d) (VFun fn_f4) [VInt x] k in
  let printed (l : list string) := set_stdout (stdout k ++ (VStr <$> l)) k in
  (call_f4 1%Z = (Raise (Exn ArithmeticError [] None), k)
   ∧ call_f3 1%Z = (Ret VNone, printed ["F3Before"; "F3Except (💣)"]))
  ∧ (call_f4 2%Z = (Raise (Exn SyntaxError [] None), k)
     ∧ call_f3 2%Z = (Raise (Exn SyntaxError [] None), printed ["F3Before"])
     ∧ call_f2 2%Z = (Ret VNone, printed ["F2Before"; "F3Before"; "F2Except (💣)"]))
  ∧ (call_f4 3%Z = (Raise (Exn TypeError [] None), k)
     ∧ call_f3 3%Z = (Raise (Exn TypeError [] None), printed ["F3Before"])
     ∧ call_f2 3%Z = (Raise (Exn TypeError [] None), printed ["F2Before"; "F3Before"])
     ∧ call_f1 3%Z
       = (Ret VNone, printed ["F1Before"; "F2Before"; "F3Before"; "F1Except (💣)"]))
  ∧ call_f1 0%Z
    = (Ret VNone, printed ["F1Before"; "F2Before"; "F3Before";
                           "F3After"; "F2After"; "F1After"])
  ∧ call_f1 1%Z
    = (Ret VNone, printed ["F1Before"; "F2Before"; "F3Before";
                           "F3Except (💣)"; "F2After"; "F1After"])
  ∧ call_f1 2%Z
    = (Ret VNone, printed ["F1Before"; "F2Before"; "F3Before";
                           "F2Except (💣)"; "F1After"]).
Proof.
  intros H2 H3 H4 call_f1 call_f2 call_f3 call_f4 printed.
  subst call_f1 call_f2 call_f3 call_f4 printed.
  repeat split; run_chain.
Qed.

(** C6: calling [higher_function] raises a [RuntimeError] whose cause is
    the [ValueError] that [lower_function] raised. *)
Theorem higher_function_chains_cause (d : nat) (k : kernel) :
  globals k !! "lower_function" = Some (VFun fn_lower_function) →
  call_at yaml_parse (1 + d) (VFun fn_lower_function) [] k
  = (Raise (Exn ValueError [VStr "Error in lower function!"] None), k)
  ∧ call_at yaml_parse (2 + d) (VFun fn_higher_function) [] k
    = (Raise (Exn RuntimeError [VStr "Error in higher function!"]
                (Some (Exn ValueError [VStr "Error in lower function!"] None))), k).
Proof.
  intros Hl. split; run_chain.
Qed.

(** *** [analysis] *)

(** C7: the final version of [analysis] prints the value under
    ['modelname'] and raises nothing for a dictionary holding that key, for
    the name of an existing YAML file holding it (through the [TypeError]
    handler) and for a raw YAML string holding it that names no file
    (through the [TypeError] and then the [IOError] handler). *)
Theorem analysis_3_prints_modelname
    (k : kernel) (d : gmap string value) (name : value) :
  d !! "modelname" = Some name →
  analysis_3 yaml_parse (VDict d) k = (Ret VNone, set_stdout (stdout k ++ [name]) k)
  ∧ (∀ path content,
       globals k !! "yaml" = Some (VModule "yaml") →
       files k !! path = Some content →
       yaml_parse content = inr (VDict d) →
       analysis_3 yaml_parse (VStr path) k
       = (Ret VNone,
          set_stdout (stdout k ++ [name])
            (set_handles (handles k ++ [FileObject path ReadMode false]) k)))
  ∧ (∀ raw,
       globals k !! "yaml" = Some (VModule "yaml") →
       files k !! raw = None →
       yaml_parse raw = inr (VDict d) →
       analysis_3 yaml_parse (VStr raw) k
       = (Ret VNone, set_stdout (stdout k ++ [name]) k)).
Proof.
  intros Hn. split; [|split].
  - run_chain.
  - intros path content Hy Hf Hp. run_chain.
  - intros raw Hy Hf Hp. run_chain.
Qed.

(** ** The notebooks as a whole *)

Lemma patch_id : reads_fixtures yaml_parse → patch yaml_parse = yaml_parse.
Proof.
  intros (H2 & H3 & He & Hr). apply functional_extensionality. intros s.
  unfold patch. case_bool_decide as Hs; [|done].
  repeat (apply elem_of_cons in Hs as [->|Hs]); [| | | |by apply elem_of_nil in Hs].
  - rewrite H2. vm_compute. reflexivity.
  - rewrite H3. vm_compute. reflexivity.
  - rewrite He. vm_compute. reflexivity.
  - rewrite Hr. vm_compute. reflexivity.
Qed.

(** With a parser that reads the fixtures, the notebook runs as it does
    with the flat loader. *)
Lemma run_in_sequence_flat :
  reads_fixtures yaml_parse →
  run_in_sequence (exceptions_notebook yaml_parse) = run_in_sequence flat_notebook.
Proof.
  intros H. rewrite <- (patch_id H). vm_compute. reflexivity.
Qed.

Lemma run_in_isolation_flat :
  reads_fixtures yaml_parse →
  run_in_isolation (exceptions_notebook yaml_parse) = run_in_isolation flat_notebook.
Proof.
  intros H. rewrite <- (patch_id H). vm_compute. reflexivity.
Qed.

(** C8, as amended: run in sequence on a fresh kernel in an empty working
    directory, the cells of the exceptions notebook all end, and five of
    them end with the exception they are there to show: [1/0] with
    [ZeroDivisionError], the loop over an [int] with [TypeError], the two
    cells that raise [MyCustomErrorType] with that class, and the call of
    [higher_function] with [RuntimeError].  Every other cell of that
    notebook and every cell of the comprehensions notebook returns. *)
Theorem cells_that_raise :
  reads_fixtures yaml_parse →
  length (run_in_sequence (exceptions_notebook yaml_parse)) = 31
  ∧ uncaught (run_in_sequence (exceptions_notebook yaml_parse))
    = [(0, ZeroDivisionError); (2, TypeError);
       (4, UserClass "MyCustomErrorType" ArithmeticError);
       (5, UserClass "MyCustomErrorType" Exception);
       (30, RuntimeError)]
  ∧ length (run_in_sequence comprehensions_notebook) = 20
  ∧ uncaught (run_in_sequence comprehensions_notebook) = [].
Proof.
  intros H. rewrite (run_in_sequence_flat H). vm_compute. done.
Qed.

(** C9, as amended: the cells of a notebook share the kernel.  A cell of
    the exceptions notebook that uses a name ([inspect], [yaml],
    [read_credentials], [f1], [analysis]) or a file ([example.yaml]) that
    only an earlier cell provides returns when run in sequence and raises
    [NameError] or [FileNotFoundError] when run alone on a fresh kernel;
    these are the cells listed in [dependent_cells].  Every other cell of
    that notebook and every cell of the comprehensions notebook ends the
    same way and prints the same alone as in sequence. *)
Theorem cells_depend_on_earlier_cells :
  reads_fixtures yaml_parse →
  let alone := run_in_isolation (exceptions_notebook yaml_parse) in
  let in_order := run_in_sequence (exceptions_notebook yaml_parse) in
  (∀ i, i ∉ dependent_cells → alone !! i = in_order !! i)
  ∧ (∀ i, i ∈ dependent_cells →
       (λ o, returns o.1) <$> in_order !! i = Some true
       ∧ (λ o, raises o.1 NameError || raises o.1 FileNotFoundError) <$> alone !! i
         = Some true)
  ∧ run_in_isolation comprehensions_notebook = run_in_sequence comprehensions_notebook.
Proof.
  intros H alone in_order. subst alone in_order.
  rewrite (run_in_sequence_flat H), (run_in_isolation_flat H).
  set (alone := run_in_isolation flat_notebook).
  set (in_order := run_in_sequence flat_notebook).
  vm_compute in alone. vm_compute in in_order.
  split; [|split].
  - intros i Hi.
    do 31 (destruct i as [|i];
           [first [reflexivity | exfalso; apply Hi; decide_goal]|]).
    reflexivity.
  - intros i Hi. unfold dependent_cells in Hi.
    repeat (apply elem_of_cons in Hi as [->|Hi]); try (vm_compute; done).
    by apply elem_of_nil in Hi.
  - vm_compute. reflexivity.
Qed.

End Properties.

(** * Concrete runs *)

(** The flat loader reads the fixtures of the notebook. *)
Lemma flat_reads_fixtures : reads_fixtures flat_yaml_parse.
Proof. repeat split; vm_compute; reflexivity. Qed.

Example credentials_kernel_files :
  files credentials_kernel !! "datasource2.yaml" = Some datasource2_yaml
  ∧ files credentials_kernel !! "datasource3.yaml" = Some datasource3_yaml
  ∧ files credentials_kernel !! "datasource.yaml" = None.
Proof. repeat split; vm_compute; reflexivity. Qed.

Example getmro_ZeroDivisionError :
  getmro ZeroDivisionError
  = [ZeroDivisionError; ArithmeticError; Exception; BaseException; object].
Proof. reflexivity. Qed.

Example comp_cell_01_value :
  (comp_cell_01 fresh).1
  = Ret (VList (VInt <$> [1; 2; 4; 8; 16; 32; 64; 128; 256; 512]%Z)).
Proof. vm_compute. reflexivity. Qed.

Example comp_cell_05_value : (comp_cell_05 fresh).1 = Ret (VStr "rc dl").
Proof. vm_compute. reflexivity. Qed.

(** C1: at the fixture files, the three versions agree on
    [datasource2.yaml] and part on [datasource3.yaml]. *)
Lemma read_credentials_versions_on_existing_file_witness :
  (read_credentials_1 flat_yaml_parse (VStr "datasource2.yaml") credentials_kernel
   = (Ret (VTuple [VStr "eidle"; VStr "secret"]),
      set_handles (handles credentials_kernel
                   ++ [FileObject "datasource2.yaml" ReadMode true]) credentials_kernel)
   ∧ read_credentials_2 flat_yaml_parse (VStr "datasource2.yaml") credentials_kernel
     = read_credentials_1 flat_yaml_parse (VStr "datasource2.yaml") credentials_kernel
   ∧ read_credentials_3 flat_yaml_parse (VStr "datasource2.yaml") credentials_kernel
     = read_credentials_1 flat_yaml_parse (VStr "datasource2.yaml") credentials_kernel
   ∧ f_closed <$> handles (read_credentials_1 flat_yaml_parse (VStr "datasource2.yaml")
                             credentials_kernel).2
                  !! length (handles credentials_kernel) = Some true)
  ∧ ((read_credentials_1 flat_yaml_parse (VStr "datasource3.yaml") credentials_kernel).1
     = Ret anonymous
     ∧ ∃ key,
         read_credentials_2 flat_yaml_parse (VStr "datasource3.yaml") credentials_kernel
         = (Raise (Exn KeyError [VStr key] None),
            set_handles (handles credentials_kernel
                         ++ [FileObject "datasource3.yaml" ReadMode true])
              credentials_kernel)
         ∧ read_credentials_3 flat_yaml_parse (VStr "datasource3.yaml") credentials_kernel
           = (Raise (Exn KeyError [VStr key] None),
              set_handles (handles credentials_kernel
                           ++ [FileObject "datasource3.yaml" ReadMode true])
                credentials_kernel)
         ∧ f_closed <$> handles (read_credentials_2 flat_yaml_parse
                                   (VStr "datasource3.yaml") credentials_kernel).2
                        !! length (handles credentials_kernel) = Some true
         ∧ f_closed <$> handles (read_credentials_3 flat_yaml_parse
                                   (VStr "datasource3.yaml") credentials_kernel).2
                        !! length (handles credentials_kernel) = Some true).
Proof.
  split.
  - refine (proj1 (read_credentials_versions_on_existing_file flat_yaml_parse
                     credentials_kernel "datasource2.yaml" datasource2_yaml
                     (<["password" := VStr "secret"]> {[ "userid" := VStr "eidle" ]})
                     _ _ _) (VStr "eidle") (VStr "secret") _ _);
      vm_compute; reflexivity.
  - refine (proj2 (read_credentials_versions_on_existing_file flat_yaml_parse
                     credentials_kernel "datasource3.yaml" datasource3_yaml
                     (<["password" := VStr "secret"]> {[ "user" := VStr "eidle" ]})
                     _ _ _) _).
    + vm_compute; reflexivity.
    + vm_compute; reflexivity.
    + vm_compute; reflexivity.
    + left. vm_compute; reflexivity.
Defined.

(** C1, counterexample: the three versions do not return the same on every
    path.  With [datasource.yaml] missing the
    first version returns [('anonymous', None)] and the other two raise
    [UnboundLocalError]; on [datasource3.yaml], which has no ['userid'], the
    first returns [('anonymous', None)] and the other two raise [KeyError]. *)
Lemma read_credentials_versions_disagree :
  ((read_credentials_1 flat_yaml_parse (VStr "datasource.yaml") credentials_kernel).1
   = Ret anonymous
   ∧ (read_credentials_2 flat_yaml_parse (VStr "datasource.yaml") credentials_kernel).1
     = Raise (Exn UnboundLocalError [VStr "datasource"] None)
   ∧ (read_credentials_3 flat_yaml_parse (VStr "datasource.yaml") credentials_kernel).1
     = Raise (Exn UnboundLocalError [VStr "datasource"] None))
  ∧ ((read_credentials_1 flat_yaml_parse (VStr "datasource3.yaml") credentials_kernel).1
     = Ret anonymous
     ∧ (read_credentials_2 flat_yaml_parse (VStr "datasource3.yaml") credentials_kernel).1
       = Raise (Exn KeyError [VStr "userid"] None)
     ∧ (read_credentials_3 flat_yaml_parse (VStr "datasource3.yaml") credentials_kernel).1
       = Raise (Exn KeyError [VStr "userid"] None))
  ∧ ¬ (∀ source : string,
         (read_credentials_2 flat_yaml_parse (VStr source) credentials_kernel).1
         = (read_credentials_1 flat_yaml_parse (VStr source) credentials_kernel).1
         ∧ (read_credentials_3 flat_yaml_parse (VStr source) credentials_kernel).1
           = (read_credentials_1 flat_yaml_parse (VStr source) credentials_kernel).1).
Proof.
  split; [|split].
  - repeat split; vm_compute; reflexivity.
  - repeat split; vm_compute; reflexivity.
  - intros H. destruct (H "datasource.yaml") as [H2 _].
    vm_compute in H2. discriminate H2.
Qed.

(** C2: the three paths at the fixture files of the notebook. *)
Lemma read_credentials_1_returns_witness :
  globals credentials_kernel !! "yaml" = Some (VModule "yaml")
  ∧ (read_credentials_1 flat_yaml_parse (VStr "datasource2.yaml") credentials_kernel).1
    = Ret (VTuple [VStr "eidle"; VStr "secret"])
  ∧ (read_credentials_1 flat_yaml_parse (VStr "datasource.yaml") credentials_kernel).1
    = Ret anonymous
  ∧ (read_credentials_1 flat_yaml_parse (VStr "datasource3.yaml") credentials_kernel).1
    = Ret anonymous.
Proof.
  assert (globals credentials_kernel !! "yaml" = Some (VModule "yaml")) as Hy
    by (vm_compute; reflexivity).
  split; [exact Hy|]. split; [|split].
  - refine (proj1 (proj2 (read_credentials_1_returns flat_yaml_parse
                            credentials_kernel "datasource2.yaml" Hy)
                     datasource2_yaml
                     (<["password" := VStr "secret"]> {[ "userid" := VStr "eidle" ]})
                     _ _) (VStr "eidle") (VStr "secret") _ _);
      vm_compute; reflexivity.
  - refine (proj1 (read_credentials_1_returns flat_yaml_parse
                     credentials_kernel "datasource.yaml" Hy) _).
    vm_compute; reflexivity.
  - refine (proj2 (proj2 (read_credentials_1_returns flat_yaml_parse
                            credentials_kernel "datasource3.yaml" Hy)
                     datasource3_yaml
                     (<["password" := VStr "secret"]> {[ "user" := VStr "eidle" ]})
                     _ _) _).
    + vm_compute; reflexivity.
    + vm_compute; reflexivity.
    + left. vm_compute; reflexivity.
Defined.

(** C3: [datasource.yaml] is not among the files of the notebook. *)
Lemma read_credentials_3_missing_file_raises_witness :
  files credentials_kernel !! "datasource.yaml" = None
  ∧ read_credentials_3 flat_yaml_parse (VStr "datasource.yaml") credentials_kernel
    = (Raise (Exn UnboundLocalError [VStr "datasource"] None), credentials_kernel).
Proof.
  assert (files credentials_kernel !! "datasource.yaml" = None) as Hf
    by (vm_compute; reflexivity).
  split; [exact Hf|].
  exact (proj1 (read_credentials_3_missing_file_raises flat_yaml_parse
                  credentials_kernel "datasource.yaml" Hf)).
Defined.

(** C10: the file object opened for [datasource3.yaml] stays open. *)
Lemma read_credentials_1_leaves_file_open_witness :
  let '(r, k') :=
    read_credentials_1 flat_yaml_parse (VStr "datasource3.yaml") credentials_kernel in
  r = Ret anonymous
  ∧ handles k'
    = handles credentials_kernel ++ [FileObject "datasource3.yaml" ReadMode false]
  ∧ f_closed <$> handles k' !! length (handles credentials_kernel) = Some false.
Proof.
  refine (read_credentials_1_leaves_file_open flat_yaml_parse credentials_kernel
            "datasource3.yaml" datasource3_yaml
            (<["password" := VStr "secret"]> {[ "user" := VStr "eidle" ]}) _ _ _ _).
  - vm_compute; reflexivity.
  - vm_compute; reflexivity.
  - vm_compute; reflexivity.
  - left. vm_compute; reflexivity.
Defined.

(** C5: the calls the notebook makes, once its cells have defined [f4] to
    [f1]. *)
Lemma exception_caught_by_first_matching_handler_witness :
  let printed (l : list string) :=
    set_stdout (stdout functions_kernel ++ (VStr <$> l)) functions_kernel in
  call flat_yaml_parse (VFun fn_f1) [VInt 0] functions_kernel
  = (Ret VNone, printed ["F1Before"; "F2Before"; "F3Before";
                         "F3After"; "F2After"; "F1After"])
  ∧ call flat_yaml_parse (VFun fn_f1) [VInt 1] functions_kernel
    = (Ret VNone, printed ["F1Before"; "F2Before"; "F3Before";
                           "F3Except (💣)"; "F2After"; "F1After"])
  ∧ call flat_yaml_parse (VFun fn_f1) [VInt 2] functions_kernel
    = (Ret VNone, printed ["F1Before"; "F2Before"; "F3Before";
                           "F2Except (💣)"; "F1After"])
  ∧ call flat_yaml_parse (VFun fn_f1) [VInt 3] functions_kernel
    = (Ret VNone, printed ["F1Before"; "F2Before"; "F3Before"; "F1Except (💣)"]).
Proof.
  intros printed.
  assert (globals functions_kernel !! "f2" = Some (VFun fn_f2)) as H2
    by (vm_compute; reflexivity).
  assert (globals functions_kernel !! "f3" = Some (VFun fn_f3)) as H3
    by (vm_compute; reflexivity).
  assert (globals functions_kernel !! "f4" = Some (VFun fn_f4)) as H4
    by (vm_compute; reflexivity).
  destruct (exception_caught_by_first_matching_handler flat_yaml_parse 996
              functions_kernel H2 H3 H4)
    as (_ & _ & (_ & _ & _ & Hc3) & Hc0 & Hc1 & Hc2).
  change (call flat_yaml_parse) with (call_at flat_yaml_parse (4 + 996)).
  split; [exact Hc0|]. split; [exact Hc1|]. split; [exact Hc2 | exact Hc3].
Defined.

(** C6: the call the last cell makes. *)
Lemma higher_function_chains_cause_witness :
  globals (kernel_after flat_notebook) !! "lower_function" = Some (VFun fn_lower_function)
  ∧ call flat_yaml_parse (VFun fn_higher_function) [] (kernel_after flat_notebook)
    = (Raise (Exn RuntimeError [VStr "Error in higher function!"]
                (Some (Exn ValueError [VStr "Error in lower function!"] None))),
       kernel_after flat_notebook).
Proof.
  assert (globals (kernel_after flat_notebook) !! "lower_function"
          = Some (VFun fn_lower_function)) as Hl by (vm_compute; reflexivity).
  split; [exact Hl|].
  exact (proj2 (higher_function_chains_cause flat_yaml_parse 998
                  (kernel_after flat_notebook) Hl)).
Defined.

(** C7: the three calls of the notebook. *)
Lemma analysis_3_prints_modelname_witness :
  (analysis_3 flat_yaml_parse (VDict {[ "modelname" := VStr "Super" ]}) analysis_kernel).1
  = Ret VNone
  ∧ stdout (analysis_3 flat_yaml_parse (VDict {[ "modelname" := VStr "Super" ]})
              analysis_kernel).2
    = stdout analysis_kernel ++ [VStr "Super"]
  ∧ stdout (analysis_3 flat_yaml_parse (VStr "example.yaml") analysis_kernel).2
    = stdout analysis_kernel ++ [VStr "brilliant"]
  ∧ stdout (analysis_3 flat_yaml_parse (VStr "modelname: Amazing") analysis_kernel).2
    = stdout analysis_kernel ++ [VStr "Amazing"].
Proof.
  assert (globals analysis_kernel !! "yaml" = Some (VModule "yaml")) as Hy
    by (vm_compute; reflexivity).
  assert (∀ v : value, ({[ "modelname" := v ]} : gmap string value) !! "modelname" = Some v)
    as Hn by (intros v; apply lookup_singleton_eq).
  destruct (analysis_3_prints_modelname flat_yaml_parse analysis_kernel
              {[ "modelname" := VStr "Super" ]} (VStr "Super") (Hn _))
    as (Hd & _ & _).
  destruct (analysis_3_prints_modelname flat_yaml_parse analysis_kernel
              {[ "modelname" := VStr "brilliant" ]} (VStr "brilliant") (Hn _))
    as (_ & Hp & _).
  destruct (analysis_3_prints_modelname flat_yaml_parse analysis_kernel
              {[ "modelname" := VStr "Amazing" ]} (VStr "Amazing") (Hn _))
    as (_ & _ & Hr).
  rewrite Hd.
  rewrite (Hp "example.yaml" example_yaml Hy) by (vm_compute; reflexivity).
  rewrite (Hr "modelname: Amazing" Hy) by (vm_compute; reflexivity).
  repeat split.
Defined.

(** C8, counterexample: the first cell of the exceptions notebook divides
    by zero and ends with the exception. *)
Lemma first_cell_raises_ZeroDivisionError :
  run_in_sequence flat_notebook !! 0
  = Some (Raise (Exn ZeroDivisionError [VStr "division by zero"] None), [])
  ∧ forallb (λ o, returns o.1) (run_in_sequence flat_notebook) = false.
Proof. split; vm_compute; reflexivity. Qed.

(** C8: the run with the flat loader. *)
Lemma cells_that_raise_witness :
  reads_fixtures flat_yaml_parse
  ∧ uncaught (run_in_sequence flat_notebook)
    = [(0, ZeroDivisionError); (2, TypeError);
       (4, UserClass "MyCustomErrorType" ArithmeticError);
       (5, UserClass "MyCustomErrorType" Exception);
       (30, RuntimeError)]
  ∧ uncaught (run_in_sequence comprehensions_notebook) = [].
Proof.
  split; [exact flat_reads_fixtures|].
  destruct (cells_that_raise flat_yaml_parse flat_reads_fixtures) as (_ & He & _ & Hc).
  split; [exact He | exact Hc].
Defined.

(** C9, counterexample: the cell [inspect.getmro(TypeError)] depends on an
    earlier one:
    after the cells before it, it shows the classes of [TypeError]; alone,
    it raises [NameError], because [inspect] was imported two cells
    earlier. *)
Lemma getmro_cell_needs_earlier_import :
  flat_notebook !! 3 = Some (exc_cell_04 flat_yaml_parse)
  ∧ run_in_sequence flat_notebook !! 3
    = Some (Ret (VTuple (VClass <$> [TypeError; Exception; BaseException; object])), [])
  ∧ run_in_isolation flat_notebook !! 3
    = Some (Raise (Exn NameError [VStr "inspect"] None), [])
  ∧ run_in_isolation flat_notebook ≠ run_in_sequence flat_notebook.
Proof.
  split; [reflexivity|]. split; [vm_compute; reflexivity|].
  split; [vm_compute; reflexivity|].
  intros H. apply (f_equal (λ l, l !! 3)) in H. vm_compute in H. discriminate H.
Qed.

(** C9: the run with the flat loader. *)
Lemma cells_depend_on_earlier_cells_witness :
  reads_fixtures flat_yaml_parse
  ∧ run_in_isolation flat_notebook !! 0 = run_in_sequence flat_notebook !! 0
  ∧ (λ o, returns o.1) <$> run_in_sequence flat_notebook !! 10 = Some true
  ∧ (λ o, raises o.1 NameError || raises o.1 FileNotFoundError)
      <$> run_in_isolation flat_notebook !! 10 = Some true
  ∧ run_in_isolation comprehensions_notebook = run_in_sequence comprehensions_notebook.
Proof.
  assert (0 ∉ dependent_cells) as H0 by decide_goal.
  assert (10 ∈ dependent_cells) as H10 by decide_goal.
  split; [exact flat_reads_fixtures|].
  destruct (cells_depend_on_earlier_cells flat_yaml_parse flat_reads_fixtures)
    as (Hsame & Hdiff & Hcomp).
  change flat_notebook with (exceptions_notebook flat_yaml_parse).
  split; [exact (Hsame 0 H0)|].
  destruct (Hdiff 10 H10) as [Hs Ha].
  split; [exact Hs|]. split; [exact Ha | exact Hcomp].
Defined.

(** * Further properties *)

(** Case analysis on whatever blocks the run: a lookup, the parser, a value
    whose kind decides, a test. *)
Ltac crush_with tac :=
  repeat first
    [ progress run_py
    | tac
    | match goal with
      | |- context [match ?x !! ?i with _ => _ end] => destruct (x !! i) eqn:?
      | |- context [match ?p ?s with inl _ => _ | inr _ => _ end] => destruct (p s) eqn:?
      | |- context [getattr ?v _] => is_var v; destruct v
      | |- context [getitem ?v _] => is_var v; destruct v
      | |- context [open_ ?v _] => is_var v; destruct v
      | |- context [close ?v] => is_var v; destruct v
      | |- context [match ?v with _ => _ end] => is_var v; destruct v
      | |- context [bool_decide ?P] => destruct (bool_decide P) eqn:?
      | |- context [if issubclass ?a ?b then _ else _] => destruct (issubclass a b) eqn:?
      | |- context [if isinstance ?a ?b then _ else _] => destruct (isinstance a b) eqn:?
      end ].

Ltac crush := crush_with fail.

Section MoreProperties.

Variable yaml_parse : string → exn + value.

(** ** [read_credentials], second and third version *)

(** X1: when the file does not exist, the second version of
    [read_credentials] fails like the third: the handler sets the anonymous
    user, then the [finally] clause reads [datasource], which was never
    bound, and the call raises [UnboundLocalError]; the kernel is as
    before. *)
Theorem read_credentials_2_missing_file_raises (k : kernel) (source : string) :
  files k !! source = None →
  read_credentials_2 yaml_parse (VStr source) k
  = (Raise (Exn UnboundLocalError [VStr "datasource"] None), k).
Proof.
  intros Hf. destruct k as [g l fs h out]. cbn in Hf. run_py. done.
Qed.

(** X2: once the file is open, the second and the third version close it
    on every path: whatever the namespace holds for [yaml], whatever the
    parser makes of the document and whichever keys are there, the call
    ends with exactly one more file object, and it is closed. *)
Theorem finally_closes_the_file (k : kernel) (source content : string) :
  files k !! source = Some content →
  handles (read_credentials_2 yaml_parse (VStr source) k).2
  = handles k ++ [FileObject source ReadMode true]
  ∧ handles (read_credentials_3 yaml_parse (VStr source) k).2
    = handles k ++ [FileObject source ReadMode true].
Proof.
  intros Hf. destruct k as [g l fs h out]. cbn in Hf.
  split; crush; done.
Qed.

(** X3: with a parser that never raises [FileNotFoundError], the second and
    the third version are the same function: same outcome and same kernel
    for every argument and from every kernel. *)
Theorem read_credentials_2_3_agree :
  (∀ s e, yaml_parse s = inl e → isinstance e FileNotFoundError = false) →
  ∀ (source : value) (k : kernel),
    read_credentials_2 yaml_parse source k = read_credentials_3 yaml_parse source k.
Proof.
  intros Hnf source k. destruct k as [g l fs h out].
  crush_with ltac:(idtac; match goal with
                          | H : yaml_parse _ = inl ?e |- context [isinstance ?e _] =>
                              rewrite (Hnf _ _ H)
                          end); done.
Qed.

(** X4: what the [else] clause changes.  When parsing the open file raises
    a [FileNotFoundError], the second version, which parses inside [try],
    takes it for a missing file and returns [('anonymous', None)]; the
    third, which parses in [else], lets it out.  Both close the file. *)
Theorem else_clause_is_not_guarded (k : kernel) (source content : string) (e : exn) :
  globals k !! "yaml" = Some (VModule "yaml") →
  files k !! source = Some content →
  yaml_parse content = inl e →
  isinstance e FileNotFoundError = true →
  read_credentials_2 yaml_parse (VStr source) k
  = (Ret anonymous, set_handles (handles k ++ [FileObject source ReadMode true]) k)
  ∧ read_credentials_3 yaml_parse (VStr source) k
    = (Raise e, set_handles (handles k ++ [FileObject source ReadMode true]) k).
Proof.
  intros Hy Hf Hp He. destruct k as [g l fs h out]. cbn in Hy, Hf.
  split.
  - run_py. rewrite He. run_py. done.
  - run_py. done.
Qed.

(** ** [analysis], version by version *)

(** X6: testing the type and trying the subscript come to the same on every
    object of the model: the first and the second version of [analysis]
    have the same outcome and leave the same kernel for every argument. *)
Theorem analysis_1_2_agree (source : value) (k : kernel) :
  analysis_2 yaml_parse source k = analysis_1 yaml_parse source k.
Proof.
  destruct k as [g l fs h out].
  destruct source; crush; done.
Qed.

(** X7: the final version only changes what happens when the second fails
    with an [OSError]: whenever the second version returns, or raises
    anything that is not an [OSError], the final version does the same and
    leaves the same kernel. *)
Theorem analysis_3_refines_analysis_2 (source : value) (k : kernel) :
  (∀ e, (analysis_2 yaml_parse source k).1 = Raise e → isinstance e OSError = false) →
  analysis_3 yaml_parse source k = analysis_2 yaml_parse source k.
Proof.
  destruct k as [g l fs h out].
  destruct source; crush; try done.
  all: intros H; try done.
  all: specialize (H _ eq_refl); unfold IOError in *.
  all: try congruence.
  all: rewrite isinstance_class in H; vm_compute in H; discriminate H.
Qed.


(** X9: a missing ['modelname'] is not taken for a wrong type.  The final
    version of [analysis] raises [KeyError] and prints nothing for a
    dictionary without the key, and for a file whose mapping lacks it, which
    it leaves open. *)
Theorem analysis_3_missing_key (k : kernel) (d : gmap string value) :
  d !! "modelname" = None →
  analysis_3 yaml_parse (VDict d) k = (Raise (Exn KeyError [VStr "modelname"] None), k)
  ∧ (∀ path content,
       globals k !! "yaml" = Some (VModule "yaml") →
       files k !! path = Some content →
       yaml_parse content = inr (VDict d) →
       analysis_3 yaml_parse (VStr path) k
       = (Raise (Exn KeyError [VStr "modelname"] None),
          set_handles (handles k ++ [FileObject path ReadMode false]) k)).
Proof.
  intros Hn. destruct k as [g l fs h out]. split.
  - run_py. done.
  - intros path content Hy Hf Hp. cbn in Hy, Hf. run_py. done.
Qed.

(** ** The call chain *)

(** X10: [f1] returns for every argument, not only for 0 to 3: no exception
    leaves it, it only prints, and for an argument that equals none of 1,
    2, 3 it prints every [Before] and [After] line. *)
Theorem f1_returns_for_every_argument (d : nat) (k : kernel) (x : value) :
  globals k !! "f2" = Some (VFun fn_f2) →
  globals k !! "f3" = Some (VFun fn_f3) →
  globals k !! "f4" = Some (VFun fn_f4) →
  ∃ trace,
    call_at yaml_parse (4 + d) (VFun fn_f1) [x] k
    = (Ret VNone, set_stdout (stdout k ++ VStr "F1Before" :: trace) k)
    ∧ (py_eq_int x 1 = false → py_eq_int x 2 = false → py_eq_int x 3 = false →
       trace = VStr <$> ["F2Before"; "F3Before"; "F3After"; "F2After"; "F1After"]).
Proof.
  intros H2 H3 H4. destruct k as [g l fs h out]. cbn in H2, H3, H4.
  destruct (py_eq_int x 0) eqn:E0; [|destruct (py_eq_int x 1) eqn:E1;
    [|destruct (py_eq_int x 2) eqn:E2; [|destruct (py_eq_int x 3) eqn:E3]]].
  all: eexists; split;
    [repeat first [progress run_py
                  | match goal with H : py_eq_int _ _ = _ |- _ => rewrite H end];
     rewrite <- ?app_assoc; cbn; reflexivity|]; try done.
Qed.

(** ** Cells that handle exceptions at the top level *)

(** X11: the cell with the bare [except:] cannot fail and cannot succeed:
    from every kernel it prints [anonymous] and binds the anonymous user,
    because asking [yaml] for the mistyped [lod] raises before the file is
    even opened, and the handler catches whatever was raised. *)
Theorem bare_except_hides_the_typo (k : kernel) :
  exc_cell_08 yaml_parse k
  = (Ret VNone,
     set_stdout (stdout k ++ [VStr "anonymous"])
       (set_globals
          (<["password" := VNone]> (<["user" := VStr "anonymous"]> (globals k))) k)).
Proof.
  destruct k as [g l fs h out]. unfold exc_cell_08.
  crush; try done.
  all: match goal with
       | H : bool_decide (_ ∈ module_attributes) = true |- _ =>
           apply bool_decide_eq_true in H; unfold module_attributes in H;
           repeat (apply elem_of_cons in H as [H|H]; [discriminate H|]);
           by apply elem_of_nil in H
       end.
Qed.

(** X12: the cell that names the exception it expects handles only that
    one.  Without [datasource.yaml] it prints the notice and [anonymous];
    with a file that holds both keys it prints the user; with a file that
    lacks a key the [KeyError] ends the cell and nothing is printed. *)
Theorem specific_except_handles_only_missing_file (k : kernel) :
  (files k !! "datasource.yaml" = None →
   (exc_cell_07 yaml_parse k).1 = Ret VNone
   ∧ stdout (exc_cell_07 yaml_parse k).2
     = stdout k ++ [VStr "No password file found, using anonymous user.";
                    VStr "anonymous"])
  ∧ (∀ content d, files k !! "datasource.yaml" = Some content →
       yaml_parse content = inr (VDict d) →
       (∀ u p, d !! "userid" = Some u → d !! "password" = Some p →
          (exc_cell_07 yaml_parse k).1 = Ret VNone
          ∧ stdout (exc_cell_07 yaml_parse k).2 = stdout k ++ [u])
       ∧ (d !! "userid" = None ∨ d !! "password" = None →
          raises (exc_cell_07 yaml_parse k).1 KeyError = true
          ∧ stdout (exc_cell_07 yaml_parse k).2 = stdout k)).
Proof.
  destruct k as [g l fs h out]. unfold exc_cell_07. cbn [files stdout]. split.
  - intros Hf. run_py. rewrite <- app_assoc. done.
  - intros content d Hf Hp. split.
    + intros u p Hu Hpw. run_py. done.
    + intros Hd. destruct (d !! "userid") as [u|] eqn:Hu.
      * destruct Hd as [?|Hpw]; [done|]. run_py. done.
      * run_py. done.
Qed.

(** ** Fixture files *)

(** X13: the cell that writes the two credential files returns from every
    kernel and prints nothing; afterwards the two files hold exactly the
    lines written, whatever they held before, every other file is as it
    was, and both file objects are closed. *)
Theorem fixture_cell_effect (k : kernel) :
  exc_cell_09 k
  = (Ret VNone,
     Kernel (<["outfile" := VFile (S (length (handles k)))]> (globals k))
            (locals k)
            (<["datasource3.yaml" := datasource3_yaml]>
               (<["datasource2.yaml" := datasource2_yaml]> (files k)))
            (handles k ++ [FileObject "datasource2.yaml" WriteMode true;
                           FileObject "datasource3.yaml" WriteMode true])
            (stdout k)).
Proof.
  destruct k as [g l fs h out]. unfold exc_cell_09.
  run_py. rewrite !insert_insert_eq, length_app, <- app_assoc. cbn.
  rewrite Nat.add_1_r. reflexivity.
Qed.

Lemma example_cell_effect (k : kernel) :
  exc_cell_26 k
  = (Ret VNone,
     Kernel (<["outfile" := VFile (length (handles k))]> (globals k))
            (locals k)
            (<["example.yaml" := example_yaml]> (files k))
            (handles k ++ [FileObject "example.yaml" WriteMode true])
            (stdout k)).
Proof.
  destruct k as [g l fs h out]. unfold exc_cell_26.
  run_py. rewrite !insert_insert_eq. reflexivity.
Qed.

(** X14: written, then read back.  From every kernel in which [yaml] is
    imported, after the cell that writes the credential files the first
    [read_credentials] returns [('eidle', 'secret')] for
    [datasource2.yaml] and [('anonymous', None)] for [datasource3.yaml],
    whose key is [user], not [userid]. *)
Theorem credentials_written_then_read (k : kernel) :
  reads_fixtures yaml_parse →
  globals k !! "yaml" = Some (VModule "yaml") →
  let k' := (exc_cell_09 k).2 in
  (read_credentials_1 yaml_parse (VStr "datasource2.yaml") k').1
  = Ret (VTuple [VStr "eidle"; VStr "secret"])
  ∧ (read_credentials_1 yaml_parse (VStr "datasource3.yaml") k').1 = Ret anonymous.
Proof.
  intros (H2 & H3 & _ & _) Hy k'. subst k'. rewrite fixture_cell_effect. cbn [snd]. split.
  - erewrite read_credentials_1_complete; [done| | |exact H2| |].
    + cbn. by rewrite lookup_insert_ne.
    + cbn. rewrite lookup_insert_ne by done. by rewrite lookup_insert_eq.
    + by rewrite lookup_insert_ne.
    + by rewrite lookup_insert_eq.
  - erewrite read_credentials_1_missing_key; [done| | |exact H3|].
    + cbn. by rewrite lookup_insert_ne.
    + cbn. by rewrite lookup_insert_eq.
    + left. by rewrite lookup_insert_ne.
Qed.

(** X15: from every kernel in which [yaml] is imported, after the cell that
    writes [example.yaml] each of the three versions of [analysis] prints
    [brilliant] for ['example.yaml'], returns, and leaves the file it
    opened open. *)
Theorem example_written_then_analysed (k : kernel) :
  reads_fixtures yaml_parse →
  globals k !! "yaml" = Some (VModule "yaml") →
  let k' := (exc_cell_26 k).2 in
  analysis_1 yaml_parse (VStr "example.yaml") k'
  = (Ret VNone,
     set_stdout (stdout k' ++ [VStr "brilliant"])
       (set_handles (handles k' ++ [FileObject "example.yaml" ReadMode false]) k'))
  ∧ analysis_2 yaml_parse (VStr "example.yaml") k'
    = analysis_1 yaml_parse (VStr "example.yaml") k'
  ∧ analysis_3 yaml_parse (VStr "example.yaml") k'
    = analysis_1 yaml_parse (VStr "example.yaml") k'.
Proof.
  intros (_ & _ & He & _) Hy k'. subst k'. rewrite example_cell_effect. cbn [snd].
  destruct k as [g l fs h out]. cbn in Hy. cbn [globals locals files handles stdout].
  set (k1 := Kernel (<["outfile" := VFile (length h)]> g) l
               (<["example.yaml" := example_yaml]> fs)
               (h ++ [FileObject "example.yaml" WriteMode true]) out).
  assert (analysis_1 yaml_parse (VStr "example.yaml") k1
          = (Ret VNone,
             set_stdout (stdout k1 ++ [VStr "brilliant"])
               (set_handles (handles k1 ++ [FileObject "example.yaml" ReadMode false]) k1)))
    as H1 by (subst k1; run_py; done).
  split; [exact H1|]. rewrite H1. subst k1. split; run_py; done.
Qed.

(** ** The exceptions notebook as a whole *)

(** X16: what the notebook leaves open.  After all its cells, three file
    objects were never closed: the one the first [read_credentials] opened
    for [datasource3.yaml] before the [KeyError], and the two that
    [analysis] opened for [example.yaml]. *)
Theorem files_left_open :
  reads_fixtures yaml_parse →
  open_files (kernel_after (exceptions_notebook yaml_parse))
  = ["datasource3.yaml"; "example.yaml"; "example.yaml"].
Proof.
  intros H. rewrite <- (patch_id yaml_parse H). vm_compute. reflexivity.
Qed.

(** X17: the notebooks can be run again on the kernel they leave: every
    cell ends the same way and prints the same as in the first run. *)
Theorem second_run_same_as_first :
  reads_fixtures yaml_parse →
  (run_cells (exceptions_notebook yaml_parse)
     (kernel_after (exceptions_notebook yaml_parse))).1
  = run_in_sequence (exceptions_notebook yaml_parse)
  ∧ (run_cells comprehensions_notebook (kernel_after comprehensions_notebook)).1
    = run_in_sequence comprehensions_notebook.
Proof.
  intros H. rewrite <- (patch_id yaml_parse H). split; vm_compute; reflexivity.
Qed.

End MoreProperties.

(** ** Comprehensions *)

Section Comprehensions.

Local Open Scope Z_scope.

(** X18: a comprehension is a filter followed by a map: it keeps, in
    order, the items that pass the test and gives the element expression of
    each; without a test it is [map], so that [[str(x) for x in range(n)]]
    is [list(map(str, range(n)))] for every [n], as in the two cells that
    show it for 10. *)
Theorem comprehension_is_map_filter :
  (∀ A (items : list A) cond elt,
     list_comp items cond elt = VList (elt <$> List.filter cond items))
  ∧ (∀ A (items : list A) elt, list_comp items (λ _, true) elt = VList (elt <$> items))
  ∧ (∀ n, list_comp (range n) (λ _, true) (λ x, VStr (str_int x))
          = VList ((λ x, VStr (str_int x)) <$> range n))
  ∧ (∀ k, comp_cell_17 k = comp_cell_18 k).
Proof.
  assert (∀ A (items : list A) cond elt,
     list_comp items cond elt = VList (elt <$> List.filter cond items)) as H1.
  { intros. unfold list_comp. by rewrite list_comp_from_spec. }
  assert (∀ A (items : list A) elt, list_comp items (λ _, true) elt = VList (elt <$> items)) as H2.
  { intros. rewrite H1. f_equal. f_equal. induction items; cbn; congruence. }
  split; [exact H1|]. split; [exact H2|]. split.
  - intros n. by rewrite H2.
  - intros k. unfold comp_cell_17, comp_cell_18. by rewrite H2.
Qed.

Lemma bind_singleton_fmap {A B} (g : A → B) (l : list A) : (y ← l; [g y]) = g <$> l.
Proof. induction l as [|a l IH]; [done|]. rewrite bind_cons, IH. done. Qed.

Lemma lookup_bind_pairs {A B} (X : list A) (Y : list B) :
  ∀ (i j : nat) x y, X !! i = Some x → Y !! j = Some y →
  (x ← X; y ← Y; [(x, y)]) !! (i * length Y + j)%nat = Some (x, y).
Proof.
  induction X as [|a X IH]; intros i j x y Hx Hy; [done|].
  rewrite bind_cons, bind_singleton_fmap.
  destruct i as [|i]; cbn in Hx.
  - injection Hx as ->. replace (0 * length Y + j)%nat with j by lia.
    rewrite lookup_app_l.
    + by rewrite list_lookup_fmap, Hy.
    + rewrite length_fmap. cbn. eauto using lookup_lt_Some.
  - rewrite lookup_app_r by (rewrite length_fmap; cbn; lia).
    rewrite length_fmap.
    replace (S i * length Y + j - length Y)%nat with (i * length Y + j)%nat by (cbn; lia).
    by apply IH.
Qed.

(** X19: the order of a comprehension with two [for] clauses against the
    nested one.  For items [x] at position [i] of the first sequence and
    [y] at position [j] of the second, the flat comprehension
    [[f(x, y) for x in X for y in Y]] has [f(x, y)] at position
    [i * len(Y) + j], while the nested [[[f(x, y) for x in X] for y in Y]]
    has it in row [j] at column [i]. *)
Theorem nested_comprehension_order {A B} (X : list A) (Y : list B) (f : A → B → value)
    (i j : nat) (x : A) (y : B) :
  X !! i = Some x → Y !! j = Some y →
  ∃ flat rows row,
    list_comp (x ← X; y ← Y; [(x, y)]) (λ _, true) (λ xy, f xy.1 xy.2) = VList flat
    ∧ list_comp Y (λ _, true) (λ y, list_comp X (λ _, true) (λ x, f x y)) = VList rows
    ∧ flat !! (i * length Y + j)%nat = Some (f x y)
    ∧ rows !! j = Some (VList row)
    ∧ row !! i = Some (f x y).
Proof.
  intros Hx Hy.
  destruct comprehension_is_map_filter as (_ & Hmap & _).
  eexists _, _, _. split; [apply Hmap|]. split; [apply Hmap|].
  split; [|split].
  - rewrite list_lookup_fmap, (lookup_bind_pairs X Y i j x y) by done. done.
  - rewrite list_lookup_fmap, Hy. cbn. by rewrite Hmap.
  - by rewrite list_lookup_fmap, Hx.
Qed.

(** X20: the test [x >= y] keeps only the pairs with a difference from 0
    up: every element of
    [[x - y for x in range(n) for y in range(n) if x >= y]] is an integer
    [z] with [0 <= z < n]. *)
Theorem filtered_differences_in_range (n : Z) (l : list value) (v : value) :
  list_comp (x ← range n; y ← range n; [(x, y)])
    (λ xy, bool_decide (xy.2 ≤ xy.1)) (λ xy, VInt (xy.1 - xy.2)) = VList l →
  v ∈ l → ∃ z, v = VInt z ∧ 0 ≤ z < n.
Proof.
  destruct comprehension_is_map_filter as (Hmf & _).
  rewrite Hmf. intros [= <-] Hv.
  apply list_elem_of_fmap in Hv as ([x y] & -> & Hxy).
  apply list_elem_of_In, filter_In in Hxy as [Hin Hle].
  apply list_elem_of_In, list_elem_of_bind in Hin as (x' & Hin & Hx).
  apply list_elem_of_bind in Hin as (y' & Hin & Hy).
  apply list_elem_of_singleton in Hin as [= -> ->].
  apply elem_of_seqZ in Hx, Hy. apply bool_decide_eq_true in Hle. cbn in *.
  eexists. split; [done|lia].
Qed.

Lemma dict_comp_lookup_inj {A} `{!EqDecision A} (items : list A) (key : A → string) val :
  Inj (=) (=) key →
  ∃ d, dict_comp items key val = VDict d
       ∧ (∀ x, x ∈ items → d !! key x = Some (val x))
       ∧ (∀ k v, d !! k = Some v → ∃ x, x ∈ items ∧ k = key x ∧ v = val x).
Proof.
  intros Hinj. induction items as [|x items IH] using rev_ind.
  - exists ∅. split; [done|]. split.
    + intros x Hx. by apply elem_of_nil in Hx.
    + intros k v Hk. by rewrite lookup_empty in Hk.
  - destruct IH as (d & Hd & Hin & Hout).
    exists (<[key x := val x]> d). split.
    { unfold dict_comp in *. rewrite foldl_app. cbn. injection Hd as ->. done. }
    split.
    + intros y Hy. apply elem_of_app in Hy as [Hy|Hy].
      * destruct (decide (y = x)) as [->|Hne]; [by rewrite lookup_insert_eq|].
        rewrite lookup_insert_ne; [by apply Hin|]. intros Hk. by apply Hinj in Hk.
      * apply list_elem_of_singleton in Hy as ->. by rewrite lookup_insert_eq.
    + intros k v Hk. destruct (decide (key x = k)) as [<-|Hne].
      * rewrite lookup_insert_eq in Hk. injection Hk as <-.
        exists x. split; [|done]. apply elem_of_app. right. by apply list_elem_of_singleton.
      * rewrite lookup_insert_ne in Hk by done.
        destruct (Hout k v Hk) as (y & Hy & -> & ->).
        exists y. split; [|done]. apply elem_of_app. by left.
Qed.

Lemma string_app_length (s t : string) :
  String.length (s +:+ t) = (String.length s + String.length t)%nat.
Proof.
  induction s as [|c s IH]; [done|].
  change (S (String.length (s +:+ t)) = S (String.length s + String.length t)).
  by rewrite IH.
Qed.

Lemma string_app_inj_l (s s' t t' : string) :
  String.length s = String.length s' → s +:+ t = s' +:+ t' → s = s'.
Proof.
  revert s'. induction s as [|c s IH]; intros [|c' s'] Hl H; try done.
  change (String c (s +:+ t) = String c' (s' +:+ t')) in H.
  cbn in Hl. injection H as -> H. f_equal. apply IH; [lia|done].
Qed.

Lemma str_repeat_3_inj : Inj (=) (=) (λ x : Z, str_repeat (str_int x) 3).
Proof.
  intros x y H. cbn in H. apply (inj pretty).
  apply string_app_inj_l in H; [done|].
  apply (f_equal String.length) in H. rewrite !string_app_length in H. cbn in H.
  unfold str_int in *. lia.
Qed.

(** X21: the dictionary [{str(x) * 3: x for x in range(n)}] maps the key
    made of the digits of [x] three times to [x] for each [x] below [n],
    different numbers never share a key, and it holds nothing else. *)
Theorem dict_comprehension_lookup (n : Z) :
  ∃ d, dict_comp (range n) (λ x, str_repeat (str_int x) 3) VInt = VDict d
       ∧ (∀ x, 0 ≤ x < n → d !! str_repeat (str_int x) 3 = Some (VInt x))
       ∧ (∀ k v, d !! k = Some v →
            ∃ x, 0 ≤ x < n ∧ k = str_repeat (str_int x) 3 ∧ v = VInt x).
Proof.
  destruct (dict_comp_lookup_inj (range n) (λ x, str_repeat (str_int x) 3) VInt
              str_repeat_3_inj) as (d & Hd & Hin & Hout).
  exists d. split; [done|]. split.
  - intros x Hx. apply Hin. apply elem_of_seqZ. lia.
  - intros k v Hk. destruct (Hout k v Hk) as (x & Hx & -> & ->).
    exists x. apply elem_of_seqZ in Hx. split; [lia|done].
Qed.

Lemma filter_every_third (m : nat) :
  List.filter (λ x, bool_decide (x `mod` 3 = 0)) (range (3 * Z.of_nat m))
  = (λ j, 3 * j) <$> range (Z.of_nat m).
Proof.
  unfold range. induction m as [|m IH]; [done|].
  replace (3 * Z.of_nat (S m)) with (3 * Z.of_nat m + 3) by lia.
  rewrite seqZ_app by lia. rewrite List.filter_app, IH, seqZ_S, fmap_app. f_equal.
  rewrite !seqZ_cons by lia. rewrite seqZ_nil by lia. cbn [List.filter].
  set (a := 0 + 3 * Z.of_nat m).
  rewrite (bool_decide_eq_true_2 (a `mod` 3 = 0))
    by (subst a; rewrite Z.add_0_l, Z.mul_comm; apply Z.mod_mul; lia).
  rewrite (bool_decide_eq_false_2 (Z.succ a `mod` 3 = 0))
    by (subst a; intros H; apply Z.mod_divide in H; [|lia]; destruct H as [q Hq]; lia).
  rewrite (bool_decide_eq_false_2 (Z.succ (Z.succ a) `mod` 3 = 0))
    by (subst a; intros H; apply Z.mod_divide in H; [|lia]; destruct H as [q Hq]; lia).
  subst a. cbn. f_equal; lia.
Qed.

(** X22: keeping every third power of two gives the powers of eight:
    [[2 ** x for x in range(3 * n) if x % 3 == 0]] is
    [[8 ** j for j in range(n)]], for every [n]; the cell shows it for
    [range(30)]. *)
Theorem every_third_power_of_two (n : Z) :
  list_comp (range (3 * n)) (λ x, bool_decide (x `mod` 3 = 0)) (λ x, VInt (2 ^ x))
  = list_comp (range n) (λ _, true) (λ j, VInt (8 ^ j)).
Proof.
  unfold list_comp. rewrite !list_comp_from_spec. cbn. f_equal.
  destruct (decide (n ≤ 0)) as [Hn|Hn].
  { unfold range. rewrite (seqZ_nil 0 (3 * n)), (seqZ_nil 0 n) by lia. done. }
  replace n with (Z.of_nat (Z.to_nat n)) by lia.
  rewrite filter_every_third.
  replace (List.filter (λ _, true) (range (Z.of_nat (Z.to_nat n))))
    with (range (Z.of_nat (Z.to_nat n))).
  2:{ induction (range _); cbn; congruence. }
  rewrite <- list_fmap_compose. apply list_fmap_ext. intros i j Hj. cbn.
  apply lookup_seqZ in Hj as [-> Hj]. f_equal.
  rewrite Z.pow_mul_r by lia. done.
Qed.

(** X23: the cell that joins the letters outside ['aeiou'], for any
    string in place of ["Eric Idle"]: the result is the string with exactly
    the letters dropped whose lower case is a vowel, the others in order;
    so no vowel of either case is left, and doing it again changes
    nothing. *)
Theorem consonants_spec (s : string) :
  String.list_ascii_of_string (consonants s)
  = List.filter (λ c, negb (char_in (lower_ascii c) "aeiou")) (String.list_ascii_of_string s)
  ∧ (∀ c, c ∈ String.list_ascii_of_string (consonants s) →
       c ∈ String.list_ascii_of_string s ∧ lower_ascii c ∉ String.list_ascii_of_string "aeiou")
  ∧ consonants (consonants s) = consonants s.
Proof.
  assert (∀ s, String.list_ascii_of_string (consonants s)
  = List.filter (λ c, negb (char_in (lower_ascii c) "aeiou")) (String.list_ascii_of_string s)) as H.
  { intros s'. unfold consonants, join_chars. rewrite String.list_ascii_of_string_of_list_ascii.
    rewrite list_comp_from_spec. cbn.
    induction (List.filter _ _) as [|c l IH]; cbn; [done|]. by rewrite IH. }
  split; [apply H|]. split.
  - intros c Hc. rewrite H in Hc. apply list_elem_of_In, filter_In in Hc as [Hin Hv].
    split; [by apply list_elem_of_In|].
    apply negb_true_iff in Hv. unfold char_in in Hv. by apply bool_decide_eq_false in Hv.
  - rewrite <- (String.string_of_list_ascii_of_string (consonants (consonants s))).
    rewrite <- (String.string_of_list_ascii_of_string (consonants s)) at 2.
    f_equal. rewrite (H (consonants s)), H.
    induction (String.list_ascii_of_string s) as [|c l IH]; cbn; [done|].
    destruct (negb (char_in (lower_ascii c) "aeiou")) eqn:E; cbn; rewrite ?E, IH; done.
Qed.

Example comp_cell_05_is_consonants : comp_cell_05 = mret (VStr (consonants "Eric Idle")).
Proof. reflexivity. Qed.

End Comprehensions.

(** ** The class hierarchy *)




(** * Concrete runs of the further properties *)

(** The flat loader fails with [YAMLError] only. *)
Lemma flat_yaml_parse_error (s : string) (e : exn) :
  flat_yaml_parse s = inl e → e = Exn YAMLError [] None.
Proof.
  unfold flat_yaml_parse.
  destruct (List.filter _ _) as [|l others]; [done|].
  destruct (mapM _ _); [done|].
  destruct others; [done|]. by intros [= <-].
Qed.

Lemma flat_yaml_parse_not_FileNotFoundError (s : string) (e : exn) :
  flat_yaml_parse s = inl e → isinstance e FileNotFoundError = false.
Proof. intros ->%flat_yaml_parse_error. reflexivity. Qed.

(** X1: [datasource.yaml] is missing in the notebook. *)
Lemma read_credentials_2_missing_file_raises_witness :
  files credentials_kernel !! "datasource.yaml" = None
  ∧ read_credentials_2 flat_yaml_parse (VStr "datasource.yaml") credentials_kernel
    = (Raise (Exn UnboundLocalError [VStr "datasource"] None), credentials_kernel).
Proof.
  assert (files credentials_kernel !! "datasource.yaml" = None) as Hf
    by (vm_compute; reflexivity).
  split; [exact Hf|].
  exact (read_credentials_2_missing_file_raises flat_yaml_parse
           credentials_kernel "datasource.yaml" Hf).
Defined.

(** X2: on [datasource3.yaml], where the [KeyError] ends both versions. *)
Lemma finally_closes_the_file_witness :
  handles (read_credentials_2 flat_yaml_parse (VStr "datasource3.yaml")
             credentials_kernel).2
  = handles credentials_kernel ++ [FileObject "datasource3.yaml" ReadMode true]
  ∧ handles (read_credentials_3 flat_yaml_parse (VStr "datasource3.yaml")
               credentials_kernel).2
    = handles credentials_kernel ++ [FileObject "datasource3.yaml" ReadMode true].
Proof.
  refine (finally_closes_the_file flat_yaml_parse credentials_kernel
            "datasource3.yaml" datasource3_yaml _).
  vm_compute; reflexivity.
Defined.

(** X3: with the flat loader, on the three paths of the notebook. *)
Lemma read_credentials_2_3_agree_witness :
  read_credentials_2 flat_yaml_parse (VStr "datasource2.yaml") credentials_kernel
  = read_credentials_3 flat_yaml_parse (VStr "datasource2.yaml") credentials_kernel
  ∧ read_credentials_2 flat_yaml_parse (VStr "datasource3.yaml") credentials_kernel
    = read_credentials_3 flat_yaml_parse (VStr "datasource3.yaml") credentials_kernel
  ∧ read_credentials_2 flat_yaml_parse (VStr "datasource.yaml") credentials_kernel
    = read_credentials_3 flat_yaml_parse (VStr "datasource.yaml") credentials_kernel.
Proof.
  pose proof (read_credentials_2_3_agree flat_yaml_parse
                flat_yaml_parse_not_FileNotFoundError) as H.
  split; [apply H|]. split; apply H.
Defined.

(** X4: with a parser that fails with [FileNotFoundError]. *)
Lemma else_clause_is_not_guarded_witness :
  (read_credentials_2 failing_parse (VStr "datasource2.yaml") credentials_kernel).1
  = Ret anonymous
  ∧ (read_credentials_3 failing_parse (VStr "datasource2.yaml") credentials_kernel).1
    = Raise (Exn FileNotFoundError [VStr datasource2_yaml] None).
Proof.
  destruct (else_clause_is_not_guarded failing_parse credentials_kernel
              "datasource2.yaml" datasource2_yaml
              (Exn FileNotFoundError [VStr datasource2_yaml] None))
    as [H2 H3].
  - vm_compute; reflexivity.
  - vm_compute; reflexivity.
  - reflexivity.
  - reflexivity.
  - rewrite H2, H3. split; reflexivity.
Defined.

(** X5: a file whose document is a plain string. *)
Lemma read_credentials_1_not_a_mapping_witness :
  read_credentials_1 flat_yaml_parse (VStr "scalar.yaml") scalar_kernel
  = (Raise (Exn TypeError [] None),
     set_handles (handles scalar_kernel ++ [FileObject "scalar.yaml" ReadMode false])
       scalar_kernel).
Proof.
  refine (read_credentials_1_not_a_mapping flat_yaml_parse scalar_kernel
            "scalar.yaml" "just text" (VStr "just text") _ _ _ _).
  - vm_compute; reflexivity.
  - vm_compute; reflexivity.
  - vm_compute; reflexivity.
  - reflexivity.
Defined.

(** X7: on a dictionary without the key, where the second version ends with
    [KeyError]. *)
Lemma analysis_3_refines_analysis_2_witness :
  analysis_3 flat_yaml_parse (VDict ∅) analysis_kernel
  = analysis_2 flat_yaml_parse (VDict ∅) analysis_kernel.
Proof.
  refine (analysis_3_refines_analysis_2 flat_yaml_parse (VDict ∅) analysis_kernel _).
  intros e He. vm_compute in He. injection He as <-. reflexivity.
Defined.


(** X9: the credentials of [datasource2.yaml] hold no ['modelname']. *)
Lemma analysis_3_missing_key_witness :
  (analysis_3 flat_yaml_parse
     (VDict (<["password" := VStr "secret"]> {[ "userid" := VStr "eidle" ]}))
     analysis_kernel).1
  = Raise (Exn KeyError [VStr "modelname"] None)
  ∧ (analysis_3 flat_yaml_parse (VStr "datasource2.yaml") analysis_kernel).1
    = Raise (Exn KeyError [VStr "modelname"] None).
Proof.
  destruct (analysis_3_missing_key flat_yaml_parse analysis_kernel
              (<["password" := VStr "secret"]> {[ "userid" := VStr "eidle" ]}))
    as [Hd Hf].
  - vm_compute; reflexivity.
  - rewrite Hd. split; [reflexivity|].
    rewrite (Hf "datasource2.yaml" datasource2_yaml); [reflexivity|..];
      vm_compute; reflexivity.
Defined.

(** X10: an integer outside 0 to 3 and a string. *)
Lemma f1_returns_for_every_argument_witness :
  (call flat_yaml_parse (VFun fn_f1) [VInt 7] functions_kernel).1 = Ret VNone
  ∧ (call flat_yaml_parse (VFun fn_f1) [VStr "seven"] functions_kernel).1 = Ret VNone.
Proof.
  assert (globals functions_kernel !! "f2" = Some (VFun fn_f2)) as H2
    by (vm_compute; reflexivity).
  assert (globals functions_kernel !! "f3" = Some (VFun fn_f3)) as H3
    by (vm_compute; reflexivity).
  assert (globals functions_kernel !! "f4" = Some (VFun fn_f4)) as H4
    by (vm_compute; reflexivity).
  change (call flat_yaml_parse) with (call_at flat_yaml_parse (4 + 996)).
  destruct (f1_returns_for_every_argument flat_yaml_parse 996 functions_kernel
              (VInt 7) H2 H3 H4) as (t1 & -> & _).
  destruct (f1_returns_for_every_argument flat_yaml_parse 996 functions_kernel
              (VStr "seven") H2 H3 H4) as (t2 & -> & _).
  split; reflexivity.
Defined.

(** X12: without the file, with the file of [datasource2.yaml] and with
    that of [datasource3.yaml]. *)
Lemma specific_except_handles_only_missing_file_witness :
  stdout (exc_cell_07 flat_yaml_parse fresh).2
  = [VStr "No password file found, using anonymous user."; VStr "anonymous"]
  ∧ stdout (exc_cell_07 flat_yaml_parse (datasource_kernel datasource2_yaml)).2
    = [VStr "eidle"]
  ∧ raises (exc_cell_07 flat_yaml_parse (datasource_kernel datasource3_yaml)).1 KeyError
    = true.
Proof.
  split; [|split].
  - refine (proj2 (proj1 (specific_except_handles_only_missing_file flat_yaml_parse
                            fresh) _)).
    vm_compute; reflexivity.
  - refine (proj2 (proj1 (proj2 (specific_except_handles_only_missing_file
                                   flat_yaml_parse (datasource_kernel datasource2_yaml))
                            datasource2_yaml
                            (<["password" := VStr "secret"]> {[ "userid" := VStr "eidle" ]})
                            _ _) (VStr "eidle") (VStr "secret") _ _));
      vm_compute; reflexivity.
  - refine (proj1 (proj2 (proj2 (specific_except_handles_only_missing_file
                                   flat_yaml_parse (datasource_kernel datasource3_yaml))
                            datasource3_yaml
                            (<["password" := VStr "secret"]> {[ "user" := VStr "eidle" ]})
                            _ _) _)).
    + vm_compute; reflexivity.
    + vm_compute; reflexivity.
    + left. vm_compute; reflexivity.
Defined.

(** X14: from the kernel the notebook has before it writes the files. *)
Lemma credentials_written_then_read_witness :
  let k' := (exc_cell_09 (kernel_after (take 8 flat_notebook))).2 in
  (read_credentials_1 flat_yaml_parse (VStr "datasource2.yaml") k').1
  = Ret (VTuple [VStr "eidle"; VStr "secret"])
  ∧ (read_credentials_1 flat_yaml_parse (VStr "datasource3.yaml") k').1 = Ret anonymous.
Proof.
  refine (credentials_written_then_read flat_yaml_parse
            (kernel_after (take 8 flat_notebook)) flat_reads_fixtures _).
  vm_compute; reflexivity.
Defined.

(** X15: from the kernel the notebook has before it writes [example.yaml]. *)
Lemma example_written_then_analysed_witness :
  let k' := (exc_cell_26 (kernel_after (take 25 flat_notebook))).2 in
  (analysis_1 flat_yaml_parse (VStr "example.yaml") k').1 = Ret VNone
  ∧ analysis_3 flat_yaml_parse (VStr "example.yaml") k'
    = analysis_1 flat_yaml_parse (VStr "example.yaml") k'.
Proof.
  intros k'.
  destruct (example_written_then_analysed flat_yaml_parse
              (kernel_after (take 25 flat_notebook)) flat_reads_fixtures)
    as (H1 & _ & H3).
  - vm_compute; reflexivity.
  - fold k' in H1, H3. rewrite H3, H1. split; reflexivity.
Defined.

(** X16: with the flat loader. *)
Lemma files_left_open_witness :
  open_files (kernel_after flat_notebook)
  = ["datasource3.yaml"; "example.yaml"; "example.yaml"].
Proof. exact (files_left_open flat_yaml_parse flat_reads_fixtures). Defined.

(** X17: with the flat loader. *)
Lemma second_run_same_as_first_witness :
  (run_cells flat_notebook (kernel_after flat_notebook)).1 = run_in_sequence flat_notebook.
Proof. exact (proj1 (second_run_same_as_first flat_yaml_parse flat_reads_fixtures)). Defined.

(** X19: the cells with [x - y] over [range(4)], at [x = 3] and [y = 1]. *)
Lemma nested_comprehension_order_witness :
  ∃ flat rows row,
    list_comp (x ← range 4; y ← range 4; [(x, y)]) (λ _, true)
      (λ xy, VInt (xy.1 - xy.2)) = VList flat
    ∧ list_comp (range 4) (λ _, true)
        (λ y, list_comp (range 4) (λ _, true) (λ x, VInt (x - y))) = VList rows
    ∧ flat !! 13 = Some (VInt 2)
    ∧ rows !! 1 = Some (VList row)
    ∧ row !! 3 = Some (VInt 2).
Proof.
  exact (nested_comprehension_order (range 4) (range 4) (λ x y, VInt (x - y))
           3 1 3%Z 1%Z eq_refl eq_refl).
Defined.

(** X20: the largest difference over [range(4)]. *)
Lemma filtered_differences_in_range_witness : ∃ z, VInt 3 = VInt z ∧ (0 ≤ z < 4)%Z.
Proof.
  refine (filtered_differences_in_range 4
            (VInt <$> [0; 1; 0; 2; 1; 0; 3; 2; 1; 0]%Z) (VInt 3) _ _).
  - vm_compute; reflexivity.
  - cbn. do 6 apply list_elem_of_further. apply list_elem_of_here.
Defined.

(** X21: the dictionary of the notebook holds 1 under ['111']. *)
Lemma dict_comprehension_lookup_witness :
  ∃ d, dict_comp (range 3) (λ x, str_repeat (str_int x) 3) VInt = VDict d
       ∧ d !! "111" = Some (VInt 1).
Proof.
  destruct (dict_comprehension_lookup 3) as (d & Hd & Hin & _).
  exists d. split; [exact Hd|]. apply (Hin 1%Z). lia.
Defined.

(** X23: the [r] of ["Eric Idle"] stays. *)
Lemma consonants_spec_witness :
  consonants "Eric Idle" = "rc dl"
  ∧ lower_ascii "r" ∉ String.list_ascii_of_string "aeiou".
Proof.
  split; [reflexivity|].
  refine (proj2 (proj1 (proj2 (consonants_spec "Eric Idle")) "r"%char _)).
  vm_compute. apply list_elem_of_here.
Defined.

